(** * hatinh_reddit: search, de-duplication and aggregation core

    A shallow embedding of [reddit/core.py] and [reddit/hatinh.py].
    Python objects become records, generators become streams of yielded
    values that may end in an exception, and the PRAW client is an abstract
    transport whose replies are arbitrary.

    Strings are sequences of 8-bit characters (code points below 256),
    integers are [Z], floats are IEEE 754 binary64 values in the
    representation of [SpecFloat]. *)

From Stdlib Require Import ZArith String Ascii List Bool Lia Sorted.
From Stdlib Require Import Floats.SpecFloat.
From stdpp Require Import base decidable list gmap sets strings.

Local Open Scope Z_scope.

(** ** Python primitives *)

Module Py.

(** Exceptions that the modelled code can raise or let through. *)
Inductive exn : Type :=
| IndexError
| KeyError
| TypeError
| ValueError
| OverflowError
| ZeroDivisionError
| AssertionError (msg : string)
| RetrievalError (msg : string).

Inductive result (A : Type) : Type :=
| OK (a : A)
| Raise (e : exn).

Arguments OK {A} a.
Arguments Raise {A} e.

Definition bind {A B : Type} (r : result A) (k : A -> result B) : result B :=
  match r with
  | OK a => k a
  | Raise e => Raise e
  end.

Notation "x <- r ;; k" := (bind r (fun x => k))
  (at level 100, r at next level, right associativity).

(** *** str *)

(** [str.lower] on code points below 256: A-Z and the Latin-1 capitals
    U+00C0..U+00DE (U+00D7 excepted) move up by 32. *)
Definition lower_char (c : ascii) : ascii :=
  let n := N_of_ascii c in
  if ((65 <=? n) && (n <=? 90) || (192 <=? n) && (n <=? 222) && negb (n =? 215))%N
  then ascii_of_N (n + 32)
  else c.

Fixpoint lower (s : string) : string :=
  match s with
  | EmptyString => EmptyString
  | String c s' => String (lower_char c) (lower s')
  end.

(** [q in s] for strings: [q] occurs in [s] at some position. *)
Fixpoint contains (q s : string) : bool :=
  if String.prefix q s then true
  else match s with
       | EmptyString => false
       | String _ s' => contains q s'
       end.

(** Characters removed by [str.strip()] without arguments. *)
Definition is_space (c : ascii) : bool :=
  let n := N_of_ascii c in
  ((9 <=? n) && (n <=? 13) || (28 <=? n) && (n <=? 32) || (n =? 133) || (n =? 160))%N.

Fixpoint lstrip (s : string) : string :=
  match s with
  | EmptyString => EmptyString
  | String c s' => if is_space c then lstrip s' else s
  end.

Fixpoint rstrip (s : string) : string :=
  match s with
  | EmptyString => EmptyString
  | String c s' =>
      match rstrip s' with
      | EmptyString => if is_space c then EmptyString else String c EmptyString
      | t => String c t
      end
  end.

Definition strip (s : string) : string := rstrip (lstrip s).

(** [s[n:]] for a natural [n]. *)
Fixpoint drop_chars (n : nat) (s : string) : string :=
  match n, s with
  | O, _ => s
  | S _, EmptyString => EmptyString
  | S n', String _ s' => drop_chars n' s'
  end.

(** [s[-1]]: the last character, [IndexError] on the empty string. *)
Fixpoint last_char (s : string) : result ascii :=
  match s with
  | EmptyString => Raise IndexError
  | String c EmptyString => OK c
  | String _ s' => last_char s'
  end.

(** [s[:-1]]. *)
Fixpoint drop_last (s : string) : string :=
  match s with
  | EmptyString => EmptyString
  | String _ EmptyString => EmptyString
  | String c s' => String c (drop_last s')
  end.

(** [sep.join(l)]. *)
Definition join (sep : string) (l : list string) : string := String.concat sep l.

(** The double quote character. *)
Definition dquote : ascii := ascii_of_N 34.

(** [s1 > s2] on strings compares code points lexicographically. *)
Definition str_gt (s1 s2 : string) : bool := String.ltb s2 s1.

(** *** Built-ins on sequences and dictionaries *)

(** [zip] applied to the unpacked [rows]: their columns, cut at the shortest
    row; nothing at all when there is no row. *)
Fixpoint zip_star {A : Type} (rows : list (list A)) : list (list A) :=
  match rows with
  | [] => []
  | r :: rs =>
      match rs with
      | [] => map (fun x => [x]) r
      | _ :: _ => zip_with cons r (zip_star rs)
      end
  end.

(** [sum(l)]. *)
Definition sum (l : list Z) : Z := fold_left Z.add l 0.

(** [dict(pairs)]: later pairs win. *)
Definition dict {V : Type} (pairs : list (string * V)) : gmap string V :=
  fold_left (fun m kv => <[kv.1 := kv.2]> m) pairs ∅.

(** [d[k]]. *)
Definition getitem {V : Type} (d : gmap string V) (k : string) : result V :=
  match d !! k with
  | Some v => OK v
  | None => Raise KeyError
  end.

(** *** float *)

(** A Python float is a binary64 value: precision 53, maximal exponent 1024. *)
Definition float : Type := spec_float.

Definition prec : Z := 53.
Definition emax : Z := 1024.

(** [float(n)] as done for mixed int/float arithmetic: round to nearest even,
    [OverflowError] when the integer is too large. *)
Definition float_of_int (n : Z) : result float :=
  match binary_normalize prec emax n 0 false with
  | S754_infinity _ => Raise OverflowError
  | f => OK f
  end.

(** [x == 0] for a float [x]: both zeros compare equal, NaN does not. *)
Definition float_is_zero (x : float) : bool := SFeqb x (S754_zero false).

(** [x / y] on floats. *)
Definition float_truediv (x y : float) : result float :=
  if float_is_zero y then Raise ZeroDivisionError else OK (SFdiv prec emax x y).

(** [n / y] for an int [n] and a float [y]. *)
Definition int_truediv_float (n : Z) (y : float) : result float :=
  x <- float_of_int n ;; float_truediv x y.

(** [int(x)] for a float [x]: truncation toward zero; NaN and the infinities
    are rejected. *)
Definition int_of_float (x : float) : result Z :=
  match x with
  | S754_zero _ => OK 0
  | S754_nan => Raise ValueError
  | S754_infinity _ => Raise OverflowError
  | S754_finite s m e => OK (cond_Zopp s (Z.shiftl (Zpos m) e))
  end.

(** *** Generators

    A generator run to exhaustion: the values it yielded, in order, and the
    exception that ended it, if any.  A step acts on a state [S]. *)
Record Stream (Y : Type) : Type := mkStream {
  yielded : list Y;
  raised : option exn
}.

Arguments mkStream {Y} yielded raised.
Arguments yielded {Y} s.
Arguments raised {Y} s.

Definition Gen (S Y : Type) : Type := S -> S * Stream Y.

Definition skip {S Y : Type} : Gen S Y :=
  fun s => (s, mkStream [] None).

Definition yield {S Y : Type} (y : Y) : Gen S Y :=
  fun s => (s, mkStream [y] None).

Definition throw {S Y : Type} (e : exn) : Gen S Y :=
  fun s => (s, mkStream [] (Some e)).

(** Sequencing: the second step runs only if the first did not raise. *)
Definition and_then {S Y : Type} (g1 g2 : Gen S Y) : Gen S Y :=
  fun s =>
    let '(s1, o1) := g1 s in
    match raised o1 with
    | Some _ => (s1, o1)
    | None =>
        let '(s2, o2) := g2 s1 in
        (s2, mkStream (yielded o1 ++ yielded o2) (raised o2))
    end.

(** [for x in l: body(x)]. *)
Fixpoint for_each {S Y A : Type} (l : list A) (body : A -> Gen S Y) : Gen S Y :=
  match l with
  | [] => skip
  | x :: l' => and_then (body x) (for_each l' body)
  end.

(** [I s ys] relates the state to everything yielded so far; a step
    preserves it when it holds again after the step, whether or not the step
    raised. *)
Definition preserves {S Y : Type} (I : S -> list Y -> Prop) (g : Gen S Y) : Prop :=
  forall s ys, I s ys -> I (g s).1 (ys ++ yielded (g s).2).

(** An iterable handed over by a library: its items, and the exception raised
    after the last of them, if any. *)
Record Listing (A : Type) : Type := mkListing {
  items : list A;
  failure : option exn
}.

Arguments mkListing {A} items failure.
Arguments items {A} l.
Arguments failure {A} l.

Definition end_of {S Y A : Type} (l : Listing A) : Gen S Y :=
  match failure l with
  | Some e => throw e
  | None => skip
  end.

End Py.

(** ** The part of [datetime] the code relies on *)

Module datetime.
Import Py.

Definition is_leap (y : Z) : bool :=
  (y mod 4 =? 0) && (negb (y mod 100 =? 0) || (y mod 400 =? 0)).

Definition days_in_month (y m : Z) : Z :=
  if m =? 2 then (if is_leap y then 29 else 28)
  else if (m =? 4) || (m =? 6) || (m =? 9) || (m =? 11) then 30
  else 31.

Definition valid_ymd (y m d : Z) : bool :=
  (1 <=? y) && (y <=? 9999) && (1 <=? m) && (m <=? 12) &&
  (1 <=? d) && (d <=? days_in_month y m).

(** A [datetime.date]: year, month and day, within the range the class
    enforces on construction. *)
Record date : Type := mkdate {
  year : Z;
  month : Z;
  day : Z;
  date_wf : valid_ymd year month day = true
}.

(** [date(y, m, d)]. *)
Definition make_date (y m d : Z) : result date :=
  match valid_ymd y m d as b return valid_ymd y m d = b -> result date with
  | true => fun H => OK (mkdate y m d H)
  | false => fun _ => Raise ValueError
  end eq_refl.

(** Dates compare as (year, month, day) triples. *)
Definition date_compare (a b : date) : comparison :=
  match year a ?= year b with
  | Eq => match month a ?= month b with
          | Eq => day a ?= day b
          | c => c
          end
  | c => c
  end.

Definition date_lt (a b : date) : Prop := date_compare a b = Lt.

Definition date_le (a b : date) : Prop := date_compare a b <> Gt.

(** Proleptic Gregorian ordinals, 0001-01-01 being day 1. *)
Definition days_before_year (y : Z) : Z :=
  let y := y - 1 in y * 365 + y / 4 - y / 100 + y / 400.

Definition days_before_month_common (m : Z) : Z :=
  nth (Z.to_nat m) [0; 0; 31; 59; 90; 120; 151; 181; 212; 243; 273; 304; 334] 0.

Definition days_before_month (y m : Z) : Z :=
  days_before_month_common m + (if (2 <? m) && is_leap y then 1 else 0).

Definition toordinal (d : date) : Z :=
  days_before_year (year d) + days_before_month (year d) (month d) + day d.

Definition MAXORDINAL : Z := 3652059.

Definition ord2ymd (n : Z) : Z * Z * Z :=
  let n := n - 1 in
  let n400 := n / 146097 in
  let n := n mod 146097 in
  let n100 := n / 36524 in
  let n := n mod 36524 in
  let n4 := n / 1461 in
  let n := n mod 1461 in
  let n1 := n / 365 in
  let n := n mod 365 in
  let y := n400 * 400 + 1 + n100 * 100 + n4 * 4 + n1 in
  if (n1 =? 4) || (n100 =? 4) then (y - 1, 12, 31)
  else
    let leapyear := (n1 =? 3) && (negb (n4 =? 24) || (n100 =? 3)) in
    let m := Z.shiftr (n + 50) 5 in
    let preceding :=
      days_before_month_common m + (if (2 <? m) && leapyear then 1 else 0) in
    if n <? preceding then
      let m' := m - 1 in
      let preceding' :=
        preceding - (days_in_month 1 m' + (if (m' =? 2) && leapyear then 1 else 0)) in
      (y, m', n - preceding' + 1)
    else (y, m, n - preceding + 1).

Definition fromordinal (n : Z) : result date :=
  let '(y, m, d) := ord2ymd n in make_date y m d.

(** [d - timedelta(days=n)]. *)
Definition sub_days (d : date) (n : Z) : result date :=
  let o := toordinal d - n in
  if (0 <? o) && (o <=? MAXORDINAL) then fromordinal o else Raise OverflowError.

(** [str(d)], the ISO form YYYY-MM-DD with zero padding. *)
Definition digit (n : Z) : ascii := ascii_of_N (48 + Z.to_N n).

Definition pad2 (n : Z) : string :=
  String (digit (n / 10)) (String (digit (n mod 10)) EmptyString).

Definition pad4 (n : Z) : string :=
  String (digit (n / 1000)) (String (digit (n / 100 mod 10)) (pad2 (n mod 100))).

Definition isoformat (d : date) : string :=
  pad4 (year d) +:+ "-" +:+ pad2 (month d) +:+ "-" +:+ pad2 (day d).

(** What the process environment contributes: the current day and the
    local-time conversion of a POSIX timestamp. *)
Class Clock : Type := {
  today : date;
  fromtimestamp : float -> result date
}.

End datetime.

(** ** The PRAW client, seen from the code *)

Module praw.
Import Py.

(** A [praw] submission object, with the attributes the code reads. *)
Record Submission : Type := mkSubmission {
  author : option string;
  subreddit : string;
  created_utc : float;
  title : string;
  selftext : string;
  permalink : string;
  url : string;
  score : Z;
  num_comments : Z;
  id : string;
  upvote_ratio : float
}.

Record Comment : Type := mkComment {
  comment_id : string;
  body : string
}.

(** What a redditor's listing hands over: submissions and comments. *)
Inductive Item : Type :=
| ItemSubmission (s : Submission)
| ItemComment (c : Comment).

(** The calls made to the client. *)
Inductive Request : Type :=
| Search (subreddit_name query sort time_filter : string) (limit : option Z)
| SubredditNew (subreddit_name : string) (limit : option Z)
| RedditorNew (user : string) (limit : option Z).

(** The client: each call answers with a listing and moves the remote side to
    a new state.  Nothing is assumed about the answers. *)
Class Transport (T : Type) : Type := {
  subreddit_search :
    string -> string -> string -> string -> option Z -> T -> Listing Submission * T;
  subreddit_new : string -> option Z -> T -> Listing Submission * T;
  redditor_new : string -> option Z -> T -> Listing Item * T
}.

End praw.

(** ** reddit/core.py *)

Module RedditSubmission.
Import Py datetime.

Record t : Type := mk {
  redditUsername : option string;
  subreddit : string;
  created : string;
  title : string;
  text : string;
  url : string;
  external_url : string;
  upvotes : Z;
  comments : Z;
  id : string;
  downvotes : Z
}.

(** [RedditSubmission.__init__]. *)
Definition __init__ {clock : Clock} (submission : praw.Submission) : result t :=
  d <- fromtimestamp (praw.created_utc submission) ;;
  downvotes <-
    (if float_is_zero (praw.upvote_ratio submission) then OK 0
     else
       q <- int_truediv_float (praw.score submission) (praw.upvote_ratio submission) ;;
       n <- int_of_float q ;;
       OK (n - praw.score submission)) ;;
  OK {| redditUsername := praw.author submission;
        subreddit := praw.subreddit submission;
        created := isoformat d;
        title := praw.title submission;
        text := praw.selftext submission;
        url := praw.permalink submission;
        external_url := praw.url submission;
        upvotes := praw.score submission;
        comments := praw.num_comments submission;
        id := praw.id submission;
        downvotes := downvotes |}.

End RedditSubmission.

Module Reddit.
Import Py datetime.

Definition TIME_FILTER_DEFAULT : string := "year".

(** A [Reddit] object: the client it holds, and the calls made through it so
    far, oldest first. *)
Record t (T : Type) : Type := mk {
  reddit : T;
  issued : list praw.Request
}.

Arguments mk {T} reddit issued.
Arguments reddit {T} _.
Arguments issued {T} _.

(** [Reddit._search]. *)
Definition _search {T : Type} {transport : praw.Transport T} (self : t T)
    (query subreddit_name sort time_filter : string) (limit : option Z)
  : Listing praw.Submission * t T :=
  let '(listing, remote) :=
    praw.subreddit_search subreddit_name query sort time_filter limit (reddit self) in
  (listing,
   mk remote (issued self ++ [praw.Search subreddit_name query sort time_filter limit])).

(** The second component of [query_in_submission]'s result. *)
Record match_info : Type := mk_match_info {
  in_title : bool;
  in_text : bool
}.

(** [query_in_submission], local to [search]. *)
Definition query_in_submission (q : string) (s : praw.Submission) : bool * match_info :=
  let q := lower q in
  let in_title := contains q (lower (praw.title s)) in
  let in_text := contains q (lower (praw.selftext s)) in
  (in_title || in_text, mk_match_info in_title in_text).

(** [subreddits] is one name or a list of names. *)
Inductive str_or_list : Type :=
| Str (s : string)
| Lst (l : list string).

(** The state of one run of [search]. *)
Record search_state (T : Type) : Type := mk_state {
  seen_ids : gset string;
  self : t T
}.

Arguments mk_state {T} seen_ids self.
Arguments seen_ids {T} _.
Arguments self {T} _.

(** The body shared by the two loops over submissions in [search]. *)
Definition visit {T : Type} {clock : Clock} (query : string)
    (submission : praw.Submission)
  : Gen (search_state T) RedditSubmission.t :=
  fun st =>
    if decide (praw.id submission ∈ seen_ids st) then skip st
    else
      let st := mk_state ({[praw.id submission]} ∪ seen_ids st) (self st) in
      let '(found, _) := query_in_submission query submission in
      if found then
        match RedditSubmission.__init__ submission with
        | OK r => yield r st
        | Raise e => throw e st
        end
      else skip st.

(** [for submission in self._search(...)] with the body above. *)
Definition scan {T : Type} {transport : praw.Transport T} {clock : Clock}
    (query search_query subreddit_name time_filter : string) (limit : option Z)
    (sort : string)
  : Gen (search_state T) RedditSubmission.t :=
  fun st =>
    let '(listing, self') :=
      _search (self st) search_query subreddit_name sort time_filter limit in
    and_then (for_each (items listing) (visit query)) (end_of listing)
      (mk_state (seen_ids st) self').

(** The body of the loop over [subreddits] in [search]: the first sort, then
    the others once 250 ids or more have been seen. *)
Definition search_subreddit {T : Type} {transport : praw.Transport T} {clock : Clock}
    (query search_query time_filter : string) (limit : option Z)
    (search_sorts : list string) (subreddit_name : string)
  : Gen (search_state T) RedditSubmission.t :=
  match search_sorts with
  | [] => throw IndexError
  | sort :: others =>
      and_then (scan query search_query subreddit_name time_filter limit sort)
        (fun st =>
           if 250 <=? Z.of_nat (size (seen_ids st)) then
             for_each others (scan query search_query subreddit_name time_filter limit) st
           else skip st)
  end.

(** [Reddit.search], started on [self] and run to exhaustion. *)
Definition search {T : Type} {transport : praw.Transport T} {clock : Clock} (self : t T)
    (query : string) (subreddits : str_or_list) (time_filter : string)
    (limit : option Z) (search_sort : option string)
  : t T * Stream RedditSubmission.t :=
  let search_query := String dquote (lower query +:+ String dquote EmptyString) in
  let search_sorts :=
    match search_sort with
    | None => ["relevance"; "hot"; "top"; "new"; "comments"]
    | Some s => [s]
    end in
  let subreddits :=
    match subreddits with
    | Str s => [s]
    | Lst l => l
    end in
  let '(st, out) :=
    for_each subreddits
      (search_subreddit query search_query time_filter limit search_sorts)
      (mk_state ∅ self) in
  (Reddit.self st, out).

(** The body of the inner loop of [search_for_multiple_terms]. *)
Definition keep_new (submission : RedditSubmission.t)
  : Gen (gset string) RedditSubmission.t :=
  fun s =>
    if decide (RedditSubmission.id submission ∈ s) then skip s
    else yield submission ({[RedditSubmission.id submission]} ∪ s).

(** The body of the loop over [search_terms].  The state is the set [s] and
    the object: the inner generator only touches the object and the loop over
    its output only touches [s], so the inner generator is run first. *)
Definition search_term {T : Type} {transport : praw.Transport T} {clock : Clock}
    (subreddit_name : str_or_list) (search_sort : option string) (query : string)
  : Gen (gset string * t T) RedditSubmission.t :=
  fun '(s, self) =>
    if String.eqb query "" then skip (s, self)
    else
      let '(self', found) :=
        search self query subreddit_name TIME_FILTER_DEFAULT None search_sort in
      let '(s', kept) := for_each (yielded found) keep_new s in
      ((s', self'), mkStream (yielded kept) (raised found)).

(** [Reddit.search_for_multiple_terms], run to exhaustion. *)
Definition search_for_multiple_terms {T : Type} {transport : praw.Transport T}
    {clock : Clock}
    (self : t T) (search_terms : list string) (subreddit_name : str_or_list)
    (search_sort : option string)
  : t T * Stream RedditSubmission.t :=
  let '((s, self'), out) :=
    for_each search_terms (search_term subreddit_name search_sort) (∅, self) in
  (self', out).

End Reddit.

(** ** The part of [urllib.parse] the code relies on *)

Module urllib.
Import Py.

(** A field of a parse result is text or bytes, depending on the argument. *)
Inductive field : Type :=
| Text (s : string)
| Bytes (b : string).

Record ParseResult : Type := mkParseResult {
  netloc : field;
  path : field
}.

(** The parser itself is a library function, taken as given. *)
Class Parser : Type := {
  urlparse : option string -> result ParseResult
}.

(** What ['{}'.format] prints for a field: text as it is, bytes as a bytes
    literal (exact for printable bytes other than quote and backslash). *)
Definition format_field (f : field) : string :=
  match f with
  | Text s => s
  | Bytes b => "b'" +:+ b +:+ "'"
  end.

End urllib.

(** ** reddit/hatinh.py *)

Module Game.
Import Py urllib.

Record t : Type := mk {
  gameId : Z;
  name : string;
  simple_url : string;
  url : option string
}.

(** [Game.__init__]. *)
Definition __init__ {parser : Parser} (gameId : Z) (name : string) (url : option string)
  : result t :=
  url_parsed <- urlparse url ;;
  let simple_url := format_field (netloc url_parsed) +:+ format_field (path url_parsed) in
  c <- last_char simple_url ;;
  let simple_url := if Ascii.eqb c "/" then drop_last simple_url else simple_url in
  OK (mk gameId name simple_url url).

End Game.

Module RedditAggregationData.
Import Py datetime.

Record t : Type := mk {
  gameId : Z;
  date : string;
  comments : Z;
  submissions : Z;
  upvotes : Z;
  downvotes : Z;
  date_of_request : string
}.

(** The tuple built for one submission. *)
Definition row (submission : RedditSubmission.t) : list Z :=
  [1;
   RedditSubmission.comments submission;
   RedditSubmission.upvotes submission;
   RedditSubmission.downvotes submission].

(** [RedditAggregationData.__init__]. *)
Definition __init__ {clock : Clock} (gameId : Z) (date : string)
    (submissions : list RedditSubmission.t) : result t :=
  let types := ["submissions"; "comments"; "upvotes"; "downvotes"] in
  let gameData :=
    dict (zip types (map sum (zip_star (map row submissions)))) in
  comments <- getitem gameData "comments" ;;
  submissions <- getitem gameData "submissions" ;;
  upvotes <- getitem gameData "upvotes" ;;
  downvotes <- getitem gameData "downvotes" ;;
  OK (mk gameId date comments submissions upvotes downvotes (isoformat today)).

End RedditAggregationData.

Module hatinh.
Import Py datetime.

(** [clean_subreddit_name]. *)
Definition clean_subreddit_name (x : string) : string :=
  let x := strip x in
  if String.prefix "r/" x then drop_chars 2 x else x.

(** A [defaultdict(list)], in insertion order: [d[k].append(v)]. *)
Fixpoint dd_append {A : Type} (k : string) (v : A) (d : list (string * list A))
  : list (string * list A) :=
  match d with
  | [] => [(k, [v])]
  | (k', vs) :: d' =>
      if String.eqb k k' then (k', vs ++ [v]) :: d' else (k', vs) :: dd_append k v d'
  end.

(** [od[k] = v] on an ordered dictionary. *)
Fixpoint od_set {A : Type} (k : string) (v : A) (od : list (string * A))
  : list (string * A) :=
  match od with
  | [] => [(k, v)]
  | (k', v') :: od' =>
      if String.eqb k k' then (k', v) :: od' else (k', v') :: od_set k v od'
  end.

(** [sorted(items, key=lambda x: x[0])]: a stable sort on the keys. *)
Fixpoint insert_by_key {A : Type} (x : string * A) (l : list (string * A))
  : list (string * A) :=
  match l with
  | [] => [x]
  | y :: l' => if String.ltb x.1 y.1 then x :: y :: l' else y :: insert_by_key x l'
  end.

Definition sorted_by_key {A : Type} (l : list (string * A)) : list (string * A) :=
  fold_left (fun acc x => insert_by_key x acc) l [].

(** The second loop of [FetchRedditDataForGames] for one game. *)
Fixpoint aggregate_game {clock : Clock} (gameId : Z)
    (list_of_submissions_by_date : list (string * list RedditSubmission.t))
    (aggregate_data_by_date : list (string * list RedditAggregationData.t))
  : result (list (string * list RedditAggregationData.t)) :=
  match list_of_submissions_by_date with
  | [] => OK aggregate_data_by_date
  | (d, submissions) :: rest =>
      r <- RedditAggregationData.__init__ gameId d submissions ;;
      aggregate_game gameId rest (dd_append d r aggregate_data_by_date)
  end.

(** The first loop of [FetchRedditDataForGames] for one game: the
    submissions found, grouped by their day of creation. *)
Definition by_date (found : list RedditSubmission.t)
  : list (string * list RedditSubmission.t) :=
  fold_left (fun d submission =>
               dd_append (RedditSubmission.created submission) submission d)
            found [].

(** The loop over [games] in [FetchRedditDataForGames]. *)
Fixpoint collect_games {T : Type} {transport : praw.Transport T} {clock : Clock}
    (reddit : Reddit.t T) (subreddits : string) (games : list Game.t)
    (aggregate_data_by_date : list (string * list RedditAggregationData.t))
  : result (list (string * list RedditAggregationData.t)) :=
  match games with
  | [] => OK aggregate_data_by_date
  | game :: rest =>
      let '(reddit', found) :=
        Reddit.search_for_multiple_terms reddit
          [Game.name game; Game.simple_url game] (Reddit.Str subreddits) None in
      let list_of_submissions_by_date := by_date (yielded found) in
      match raised found with
      | Some e => Raise e
      | None =>
          aggregate_data_by_date' <-
            aggregate_game (Game.gameId game) list_of_submissions_by_date
              aggregate_data_by_date ;;
          collect_games reddit' subreddits rest aggregate_data_by_date'
      end
  end.

(** [FetchRedditDataForGames]; [reddit] stands for the object the function
    builds from [credentials_path]. *)
Definition FetchRedditDataForGames {T : Type} {transport : praw.Transport T}
    {clock : Clock}
    (subreddits : list string) (games : list Game.t) (reddit : Reddit.t T)
  : result (list (string * list RedditAggregationData.t)) :=
  let subreddits := join "+" (map clean_subreddit_name subreddits) in
  aggregate_data_by_date <- collect_games reddit subreddits games [] ;;
  OK (fold_left (fun od kv => od_set kv.1 kv.2 od)
        (sorted_by_key aggregate_data_by_date) []).

(** The checks and the cut-off date common to the two windowed fetchers. *)
Definition filter_date_of {clock : Clock} (collection_period : string) : result string :=
  if negb (existsb (String.eqb collection_period) ["D"; "W"; "M"; "Y"])
  then Raise (AssertionError "Collection period has to be one of D,W,M or Y")
  else
    match dict [("D", 1); ("W", 7); ("M", 30); ("Y", 365)]
          !! collection_period with
    | None => Raise TypeError
    | Some days => d <- sub_days today days ;; OK (isoformat d)
    end.

(** The body shared by the two fetchers once an item is known to be a
    submission; [results.append] is the stream's output. *)
Definition keep_recent {T : Type} {clock : Clock} (filter_date : string)
    (submission : praw.Submission)
  : Gen (Reddit.search_state T) RedditSubmission.t :=
  fun st =>
    if decide (praw.id submission ∈ Reddit.seen_ids st) then skip st
    else
      let st :=
        Reddit.mk_state ({[praw.id submission]} ∪ Reddit.seen_ids st)
          (Reddit.self st) in
      match RedditSubmission.__init__ submission with
      | OK r =>
          if str_gt (RedditSubmission.created r) filter_date then yield r st
          else skip st
      | Raise e => throw e st
      end.

(** What a function hands back when its body was run as a stream. *)
Definition returned {A : Type} (out : Stream A) : result (list A) :=
  match raised out with
  | Some e => Raise e
  | None => OK (yielded out)
  end.

(** The body of the loop over [subreddits] in
    [FetchRedditSubmissionsInSubreddits]. *)
Definition new_in_subreddit {T : Type} {transport : praw.Transport T} {clock : Clock}
    (filter_date : string) (limit : option Z) (subreddit_name : string)
  : Gen (Reddit.search_state T) RedditSubmission.t :=
  fun st =>
    let subreddit_name := clean_subreddit_name subreddit_name in
    let '(listing, remote) :=
      praw.subreddit_new subreddit_name limit (Reddit.reddit (Reddit.self st)) in
    let self' :=
      Reddit.mk remote
        (Reddit.issued (Reddit.self st) ++ [praw.SubredditNew subreddit_name limit]) in
    and_then (for_each (items listing) (keep_recent filter_date)) (end_of listing)
      (Reddit.mk_state (Reddit.seen_ids st) self').

(** [FetchRedditSubmissionsInSubreddits]; [reddit] stands for the object the
    function builds from [credentials_path]. *)
Definition FetchRedditSubmissionsInSubreddits {T : Type}
    {transport : praw.Transport T} {clock : Clock}
    (subreddits : list string) (collection_period : string) (reddit : Reddit.t T)
    (limit : option Z)
  : result (list RedditSubmission.t) :=
  filter_date <- filter_date_of collection_period ;;
  returned
    (for_each subreddits (new_in_subreddit filter_date limit)
       (Reddit.mk_state ∅ reddit)).2.

(** The body of the loop over a redditor's listing: comments are passed over. *)
Definition keep_recent_submission {T : Type} {clock : Clock} (filter_date : string)
    (submission : praw.Item)
  : Gen (Reddit.search_state T) RedditSubmission.t :=
  match submission with
  | praw.ItemComment _ => skip
  | praw.ItemSubmission submission => keep_recent filter_date submission
  end.

(** The body of the loop over [users] in [FetchRedditSubmissionsByUsers]. *)
Definition new_by_user {T : Type} {transport : praw.Transport T} {clock : Clock}
    (filter_date : string) (limit : option Z) (user : string)
  : Gen (Reddit.search_state T) RedditSubmission.t :=
  fun st =>
    let '(listing, remote) :=
      praw.redditor_new user limit (Reddit.reddit (Reddit.self st)) in
    let self' :=
      Reddit.mk remote
        (Reddit.issued (Reddit.self st) ++ [praw.RedditorNew user limit]) in
    and_then (for_each (items listing) (keep_recent_submission filter_date))
      (end_of listing)
      (Reddit.mk_state (Reddit.seen_ids st) self').

(** [FetchRedditSubmissionsByUsers]; [reddit] as above. *)
Definition FetchRedditSubmissionsByUsers {T : Type}
    {transport : praw.Transport T} {clock : Clock}
    (users : list string) (collection_period : string) (reddit : Reddit.t T)
    (limit : option Z)
  : result (list RedditSubmission.t) :=
  filter_date <- filter_date_of collection_period ;;
  returned
    (for_each users (new_by_user filter_date limit) (Reddit.mk_state ∅ reddit)).2.

End hatinh.

(** ** Definitions that follow the specification's words *)

Module Spec.
Import Py.

(** [q] is a substring of [s]. *)
Definition is_substring (q s : string) : Prop :=
  exists before after : string, s = before +:+ q +:+ after.

(** The exact-match condition on a record: the lower-cased query occurs in
    the lower-cased title or in the lower-cased body. *)
Definition matches (q : string) (r : RedditSubmission.t) : Prop :=
  is_substring (lower q) (lower (RedditSubmission.title r)) \/
  is_substring (lower q) (lower (RedditSubmission.text r)).

(** The ids of a list of records, in order. *)
Definition ids (l : list RedditSubmission.t) : list string :=
  map RedditSubmission.id l.

(** The ids put out are distinct and all of them are in the seen set. *)
Definition distinct_within (seen : gset string) (ys : list RedditSubmission.t) : Prop :=
  NoDup (ids ys) /\ forall i, i ∈ ids ys -> i ∈ seen.

(** An invariant of a search or of a fetch relates the set of seen ids to
    the records put out so far. *)
Definition on_seen {T : Type} (P : gset string -> list RedditSubmission.t -> Prop)
  : Reddit.search_state T -> list RedditSubmission.t -> Prop :=
  fun st ys => P (Reddit.seen_ids st) ys.

(** The record carries the ISO form of a date, and that string is greater
    than [filter_date]. *)
Definition after_filter_date (filter_date : string) (r : RedditSubmission.t) : Prop :=
  (exists d, RedditSubmission.created r = datetime.isoformat d) /\
  str_gt (RedditSubmission.created r) filter_date = true.

(** The day counts of the collection periods. *)
Definition period_days : list (string * Z) :=
  [("D", 1); ("W", 7); ("M", 30); ("Y", 365)].

(** Lexicographic combination of two comparisons. *)
Definition lex (c1 c2 : comparison) : comparison :=
  match c1 with
  | Eq => c2
  | _ => c1
  end.

(** The sum of a field over a list of records. *)
Fixpoint total (f : RedditSubmission.t -> Z) (l : list RedditSubmission.t) : Z :=
  match l with
  | [] => 0
  | r :: l' => f r + total f l'
  end.

(** Every aggregate record counts at least one submission. *)
Definition counted (rs : list RedditAggregationData.t) : Prop :=
  Forall (fun r => 1 <= RedditAggregationData.submissions r) rs.

(** The query string sent for a term: the lower-cased term between double
    quotes. *)
Definition quoted (q : string) : string :=
  String dquote (lower q +:+ String dquote EmptyString).

(** The request is a search for the term [q]. *)
Definition asks_for (q : string) (r : praw.Request) : Prop :=
  exists subreddit_name sort time_filter limit,
    r = praw.Search subreddit_name (quoted q) sort time_filter limit.

(** The calls made through [self'] are those made through [self] followed by
    calls that all satisfy [P]. *)
Definition issues_only {T : Type} (P : praw.Request -> Prop) (self self' : Reddit.t T)
  : Prop :=
  exists new, Reddit.issued self' = Reddit.issued self ++ new /\ Forall P new.

(** The channels a search goes over. *)
Definition names_of (subreddits : Reddit.str_or_list) : list string :=
  match subreddits with
  | Reddit.Str s => [s]
  | Reddit.Lst l => l
  end.

(** The sorts tried when none is given, in order. *)
Definition cascade : list string := ["relevance"; "hot"; "top"; "new"; "comments"].

(** The number of distinct ids in a listing. *)
Definition distinct_ids (l : list praw.Submission) : nat :=
  size (list_to_set (map praw.id l) : gset string).

(** The submission was created on the day written [d]. *)
Definition on_day (d : string) (s : RedditSubmission.t) : bool :=
  String.eqb (RedditSubmission.created s) d.

(** The keys of a dictionary kept as a list of pairs, in order. *)
Definition keys {A : Type} (l : list (string * A)) : list string := map fst l.




(** The submissions among the items of a redditor's listing, in order. *)
Definition submissions_among (l : list praw.Item) : list praw.Submission :=
  omap (fun i => match i with
                 | praw.ItemSubmission s => Some s
                 | praw.ItemComment _ => None
                 end) l.

(** The floor of a finite float, as an integer. *)
Definition floor (x : float) : result Z :=
  match x with
  | S754_zero _ => OK 0
  | S754_nan => Raise ValueError
  | S754_infinity _ => Raise OverflowError
  | S754_finite s m e => OK (Z.shiftl (cond_Zopp s (Zpos m)) e)
  end.

(** The ceiling of a finite float. *)
Definition ceil (x : float) : result Z :=
  n <- floor (SFopp x) ;; OK (- n).

(** The downvote estimate as the specification words it:
    0 when the ratio is 0, else floor(score / ratio) - score. *)
Definition downvoteEstimate (score : Z) (upvoteRatio : float) : result Z :=
  if float_is_zero upvoteRatio then OK 0
  else
    q <- int_truediv_float score upvoteRatio ;;
    n <- floor q ;;
    OK (n - score).

(** The sign bit of a float is set. *)
Definition is_negative (x : float) : bool :=
  match x with
  | S754_zero s | S754_infinity s | S754_finite s _ _ => s
  | S754_nan => false
  end.

End Spec.

(** ** Test doubles: a transport, a clock and a URL parser to run the code on *)

Module Fixture.
Import Py datetime.

(** A transport that answers every call from a fixed table. *)
Definition submissions_of (l : Listing praw.Item) : Listing praw.Submission :=
  mkListing
    (omap (fun i => match i with
                    | praw.ItemSubmission s => Some s
                    | praw.ItemComment _ => None
                    end) (items l))
    (failure l).

Definition table_transport (reply : praw.Request -> Listing praw.Item)
  : praw.Transport unit :=
  {| praw.subreddit_search := fun subreddit_name query sort time_filter limit u =>
       (submissions_of
          (reply (praw.Search subreddit_name query sort time_filter limit)), u);
     praw.subreddit_new := fun subreddit_name limit u =>
       (submissions_of (reply (praw.SubredditNew subreddit_name limit)), u);
     praw.redditor_new := fun user limit u =>
       (reply (praw.RedditorNew user limit), u) |}.

Definition fresh : Reddit.t unit := Reddit.mk tt [].

(** The float nearest to an integer. *)
Definition f64 (n : Z) : float := binary_normalize prec emax n 0 false.

(** The floats written 0.5, 0.75 and 0.8. *)
Definition ratio_0_5 : float := S754_finite false 4503599627370496 (-53).
Definition ratio_0_75 : float := S754_finite false 6755399441055744 (-53).
Definition ratio_0_8 : float := S754_finite false 7205759403792794 (-53).

(** A clock in the UTC zone whose current day is 2020-03-01. *)
Definition fromtimestamp_utc (x : float) : result date :=
  n <- Spec.floor x ;; fromordinal (719163 + n / 86400).

Definition day_2020_03_01 : date := mkdate 2020 3 1 eq_refl.

Definition utc_clock : Clock :=
  {| today := day_2020_03_01; fromtimestamp := fromtimestamp_utc |}.

(** Midnight of 2020-03-01 is 1583020800 seconds after the epoch. *)
Definition midnight_2020_03_01 : Z := 1583020800.

Definition post (id title selftext : string) (days_ago : Z) (score num_comments : Z)
    (upvote_ratio : float) : praw.Submission :=
  praw.mkSubmission (Some "someone") "gaming"
    (f64 (midnight_2020_03_01 - 86400 * days_ago + 3600))
    title selftext ("/r/gaming/comments/" +:+ id) ("https://example.com/" +:+ id)
    score num_comments id upvote_ratio.

(** Submissions and the records made from them under [utc_clock]. *)
Definition cat_post : praw.Submission :=
  post "p1" "Cats are great" "" 0 10 2 ratio_0_5.

Definition dog_post : praw.Submission :=
  post "p2" "Dogs" "no felines here" 0 3 0 ratio_0_75.

Definition pet_post : praw.Submission :=
  post "p3" "Pets" "My CAT sleeps" 0 4 1 ratio_0_8.

Definition old_post : praw.Submission :=
  post "p4" "Old cat news" "" 1 7 0 ratio_0_5.

Definition sunk_post : praw.Submission :=
  post "p5" "Bad cat" "" 0 (-5) 0 ratio_0_5.

Definition odd_post : praw.Submission :=
  post "p6" "Odd cat" "" 0 (-1) 0 ratio_0_75.

Definition nan_post : praw.Submission :=
  post "p7" "Cat?" "" 0 3 0 S754_nan.

Definition cat_record : RedditSubmission.t :=
  RedditSubmission.mk (Some "someone") "gaming" "2020-03-01" "Cats are great" ""
    "/r/gaming/comments/p1" "https://example.com/p1" 10 2 "p1" 10.

Definition pet_record : RedditSubmission.t :=
  RedditSubmission.mk (Some "someone") "gaming" "2020-03-01" "Pets" "My CAT sleeps"
    "/r/gaming/comments/p3" "https://example.com/p3" 4 1 "p3" 1.

Definition sunk_record : RedditSubmission.t :=
  RedditSubmission.mk (Some "someone") "gaming" "2020-03-01" "Bad cat" ""
    "/r/gaming/comments/p5" "https://example.com/p5" (-5) 0 "p5" (-5).

Definition old_record : RedditSubmission.t :=
  RedditSubmission.mk (Some "someone") "gaming" "2020-02-29" "Old cat news" ""
    "/r/gaming/comments/p4" "https://example.com/p4" 7 0 "p4" 7.

Definition odd_record : RedditSubmission.t :=
  RedditSubmission.mk (Some "someone") "gaming" "2020-03-01" "Odd cat" ""
    "/r/gaming/comments/p6" "https://example.com/p6" (-1) 0 "p6" 0.

(** A transport with repeats in its answers, a submission that does not
    contain the query, one that is a day old, and a comment. *)
Definition cats_reply (r : praw.Request) : Listing praw.Item :=
  match r with
  | praw.Search _ _ _ _ _ =>
      mkListing
        [praw.ItemSubmission cat_post; praw.ItemSubmission dog_post;
         praw.ItemSubmission cat_post; praw.ItemSubmission pet_post]
        None
  | praw.SubredditNew _ _ =>
      mkListing
        [praw.ItemSubmission cat_post; praw.ItemSubmission old_post;
         praw.ItemSubmission cat_post; praw.ItemSubmission pet_post]
        None
  | praw.RedditorNew _ _ =>
      mkListing
        [praw.ItemComment (praw.mkComment "c1" "nice cat");
         praw.ItemSubmission pet_post; praw.ItemSubmission old_post;
         praw.ItemSubmission pet_post]
        None
  end.

Definition cats : praw.Transport unit := table_transport cats_reply.



(** [n] submissions with distinct ids, all of them about a cat. *)
Fixpoint numbered_posts (n : nat) : list praw.Item :=
  match n with
  | O => []
  | S k =>
      praw.ItemSubmission
        (post (String (ascii_of_nat (k / 16 + 65))
                 (String (ascii_of_nat (k mod 16 + 65)) EmptyString))
           "a cat" "" 0 1 0 ratio_0_5)
      :: numbered_posts k
  end.

(** A transport where the first sort on subreddit a lists 250 submissions
    and every other search lists none. *)
Definition busy_reply (r : praw.Request) : Listing praw.Item :=
  match r with
  | praw.Search subreddit_name _ sort _ _ =>
      if String.eqb subreddit_name "a" && String.eqb sort "relevance"
      then mkListing (numbered_posts 250) None
      else mkListing [] None
  | _ => mkListing [] None
  end.

Definition busy : praw.Transport unit := table_transport busy_reply.

(** [urlparse] on an absent URL and on URLs of the shape
    [scheme://host/path], [//host/path] or [path], without query, fragment
    or parameters. *)
Fixpoint split_at_slash (s : string) : string * string :=
  match s with
  | EmptyString => (EmptyString, EmptyString)
  | String c s' =>
      if Ascii.eqb c "/" then (EmptyString, s)
      else let '(host, rest) := split_at_slash s' in (String c host, rest)
  end.

Fixpoint after_scheme (fuel : nat) (s : string) : option string :=
  match fuel, s with
  | S fuel', String c s' =>
      if Ascii.eqb c ":" then Some s'
      else if Ascii.eqb c "/" then None
      else after_scheme fuel' s'
  | _, _ => None
  end.

Definition urlparse_basic (url : option string) : result urllib.ParseResult :=
  match url with
  | None => OK (urllib.mkParseResult (urllib.Bytes "") (urllib.Bytes ""))
  | Some u =>
      let rest :=
        match u with
        | String c _ =>
            if Ascii.eqb c ":" then u
            else match after_scheme (String.length u) u with
                 | Some r => r
                 | None => u
                 end
        | EmptyString => u
        end in
      if String.prefix "//" rest then
        let '(host, p) := split_at_slash (drop_chars 2 rest) in
        OK (urllib.mkParseResult (urllib.Text host) (urllib.Text p))
      else OK (urllib.mkParseResult (urllib.Text "") (urllib.Text rest))
  end.

Definition basic_parser : urllib.Parser := {| urllib.urlparse := urlparse_basic |}.

End Fixture.

(** * Properties *)

Import Py datetime.

(** ** Invariants of generators *)

Section Generators.
Context {S Y : Type}.

Lemma preserves_skip (I : S -> list Y -> Prop) : preserves I skip.
Proof. intros s ys HI. simpl. by rewrite app_nil_r. Qed.

Lemma preserves_throw (I : S -> list Y -> Prop) (e : exn) : preserves I (throw e).
Proof. intros s ys HI. simpl. by rewrite app_nil_r. Qed.

Lemma preserves_and_then (I : S -> list Y -> Prop) (g1 g2 : Gen S Y) :
  preserves I g1 -> preserves I g2 -> preserves I (and_then g1 g2).
Proof.
  intros H1 H2 s ys HI. unfold and_then.
  specialize (H1 s ys HI). destruct (g1 s) as [s1 o1]. simpl in H1.
  destruct (raised o1); [exact H1|].
  specialize (H2 s1 _ H1). destruct (g2 s1) as [s2 o2]. simpl in *.
  by rewrite app_assoc.
Qed.

Lemma preserves_for_each {A : Type} (I : S -> list Y -> Prop) (l : list A)
    (body : A -> Gen S Y) :
  (forall x, x ∈ l -> preserves I (body x)) -> preserves I (for_each l body).
Proof.
  induction l as [|x l IH]; intros Hbody; simpl.
  - apply preserves_skip.
  - apply preserves_and_then.
    + apply Hbody. left.
    + apply IH. intros y Hy. apply Hbody. by right.
Qed.

Lemma preserves_end_of {A : Type} (I : S -> list Y -> Prop) (l : Listing A) :
  preserves I (end_of l).
Proof.
  unfold end_of. destruct (failure l); [apply preserves_throw | apply preserves_skip].
Qed.

(** A run started with nothing yielded ends in the invariant. *)
Lemma preserves_run (I : S -> list Y -> Prop) (g : Gen S Y) (s : S) :
  preserves I g -> I s [] -> I (g s).1 (yielded (g s).2).
Proof. intros Hg HI. exact (Hg s [] HI). Qed.

End Generators.

Create HintDb gen discriminated.

#[export] Hint Resolve preserves_skip preserves_throw preserves_end_of
  preserves_and_then preserves_for_each : gen.

(** ** Strings *)

Lemma append_cons (c : ascii) (s t : string) : String c s +:+ t = String c (s +:+ t).
Proof. reflexivity. Qed.

Lemma append_nil (t : string) : "" +:+ t = t.
Proof. reflexivity. Qed.

Lemma last_char_drop_last (s : string) (c : ascii) :
  last_char s = OK c -> s = drop_last s +:+ String c "".
Proof.
  induction s as [|a s IH]; [discriminate|]. destruct s as [|b s].
  - simpl. by intros [= ->].
  - intros Hlast. change (drop_last (String a (String b s)))
      with (String a (drop_last (String b s))).
    rewrite append_cons. f_equal. by apply IH.
Qed.

Lemma last_char_nonempty (c : ascii) (s : string) :
  exists c', last_char (String c s) = OK c'.
Proof.
  revert c. induction s as [|c1 s IH]; intros c; [by exists c|].
  destruct (IH c1) as [c' Hc']. by exists c'.
Qed.

Lemma prefix_iff (q s : string) :
  String.prefix q s = true <-> exists after : string, s = q +:+ after.
Proof.
  revert s. induction q as [|a q IH]; intros s.
  - destruct s; simpl; split; eauto.
  - destruct s as [|b s]; simpl.
    + split; [discriminate | intros [r Hr]; discriminate].
    + destruct (ascii_dec a b) as [->|Hne].
      * rewrite IH. split; intros [r Hr]; exists r.
        -- by rewrite Hr.
        -- by injection Hr.
      * split; [discriminate | intros [r Hr]; injection Hr as -> _; done].
Qed.

(** [contains] decides the substring relation. *)
Lemma contains_iff (q s : string) :
  contains q s = true <-> Spec.is_substring q s.
Proof.
  induction s as [|c s IH]; cbn [contains].
  - destruct (String.prefix q "") eqn:Hp.
    + split; [|reflexivity]. intros _. apply prefix_iff in Hp as [r Hr].
      exists "", r. exact Hr.
    + split; [discriminate|]. intros (b & a & Hs).
      destruct b; [|discriminate].
      assert (String.prefix q "" = true) by (apply prefix_iff; eauto). congruence.
  - destruct (String.prefix q (String c s)) eqn:Hp.
    + split; [|reflexivity]. intros _. apply prefix_iff in Hp as [r Hr].
      exists "", r. exact Hr.
    + rewrite IH. split.
      * intros (b & a & ->). exists (String c b), a. reflexivity.
      * intros (b & a & Hs). destruct b as [|c' b].
        -- assert (String.prefix q (String c s) = true) by (apply prefix_iff; eauto).
           congruence.
        -- injection Hs as -> ->. exists b, a. reflexivity.
Qed.

(** ** What [RedditSubmission.__init__] copies *)

Section Records.
Context {clock : Clock}.

Lemma init_fields (submission : praw.Submission) (r : RedditSubmission.t) :
  RedditSubmission.__init__ submission = OK r ->
  RedditSubmission.id r = praw.id submission /\
  RedditSubmission.title r = praw.title submission /\
  RedditSubmission.text r = praw.selftext submission /\
  RedditSubmission.upvotes r = praw.score submission /\
  RedditSubmission.comments r = praw.num_comments submission /\
  exists d, fromtimestamp (praw.created_utc submission) = OK d /\
            RedditSubmission.created r = isoformat d.
Proof.
  unfold RedditSubmission.__init__, bind. intros Hr.
  destruct (fromtimestamp _) as [d|]; [|discriminate].
  destruct (if float_is_zero _ then _ else _) as [n|]; [|discriminate].
  injection Hr as <-. simpl. eauto 10.
Qed.

End Records.

(** ** Invariants of [Reddit.search] *)

Section Search.
Context {T : Type} {transport : praw.Transport T} {clock : Clock}.

Lemma preserves_if {S Y : Type} (I : S -> list Y -> Prop) (c : S -> bool)
    (g1 g2 : Gen S Y) :
  preserves I g1 -> preserves I g2 ->
  preserves I (fun s => if c s then g1 s else g2 s).
Proof. intros H1 H2 s ys HI. destruct (c s); [by apply H1 | by apply H2]. Qed.

Lemma scan_preserves_state (I : Reddit.search_state T -> list RedditSubmission.t -> Prop)
    (query search_query subreddit_name time_filter : string) (limit : option Z)
    (sort : string) :
  (forall submission, preserves I (Reddit.visit query submission)) ->
  (forall st ys,
     I st ys ->
     I (Reddit.mk_state (Reddit.seen_ids st)
          (Reddit._search (Reddit.self st) search_query subreddit_name sort
             time_filter limit).2) ys) ->
  preserves I (Reddit.scan query search_query subreddit_name time_filter limit sort).
Proof.
  intros Hvisit Hcall st ys HI. unfold Reddit.scan.
  specialize (Hcall st ys HI).
  destruct (Reddit._search _ _ _ _ _ _) as [listing self'].
  apply preserves_and_then; auto with gen.
Qed.

(** Whatever the transport answers: a property that [visit] and the calls to
    [_search] preserve, and that holds at the start, holds of the whole run
    of [search]. *)
Lemma search_state_invariant
    (I : Reddit.search_state T -> list RedditSubmission.t -> Prop)
    (self : Reddit.t T) (query : string) (subreddits : Reddit.str_or_list)
    (time_filter : string) (limit : option Z) (search_sort : option string) :
  (forall submission, preserves I (Reddit.visit query submission)) ->
  (forall st ys subreddit_name sort,
     I st ys ->
     I (Reddit.mk_state (Reddit.seen_ids st)
          (Reddit._search (Reddit.self st) (Spec.quoted query) subreddit_name sort
             time_filter limit).2) ys) ->
  I (Reddit.mk_state ∅ self) [] ->
  exists seen,
    I (Reddit.mk_state seen
         (Reddit.search self query subreddits time_filter limit search_sort).1)
      (yielded (Reddit.search self query subreddits time_filter limit search_sort).2).
Proof.
  intros Hvisit Hcall H0. unfold Reddit.search.
  match goal with
  | |- context [for_each ?l ?body ?s] =>
      assert (Hrun : preserves I (for_each l body));
      [| pose proof (preserves_run _ _ s Hrun H0) as Hend;
         destruct (for_each l body s) as [[seen self'] out]; by exists seen]
  end.
  apply preserves_for_each. intros subreddit_name _.
  destruct search_sort as [sort|];
    (apply preserves_and_then;
       [apply scan_preserves_state; [exact Hvisit | intros; by apply Hcall]|];
     apply (preserves_if _ (fun st => 250 <=? Z.of_nat (size (Reddit.seen_ids st))));
       [| apply preserves_skip];
     apply preserves_for_each; intros x _;
     apply scan_preserves_state; [exact Hvisit | intros; by apply Hcall]).
Qed.

(** The same for a property of the seen ids and the output alone. *)
Lemma search_invariant (P : gset string -> list RedditSubmission.t -> Prop)
    (self : Reddit.t T) (query : string) (subreddits : Reddit.str_or_list)
    (time_filter : string) (limit : option Z) (search_sort : option string) :
  (forall submission,
     preserves (Spec.on_seen P) (Reddit.visit (T := T) query submission)) ->
  P ∅ [] ->
  exists seen,
    P seen
      (yielded (Reddit.search self query subreddits time_filter limit search_sort).2).
Proof.
  intros Hvisit H0.
  apply (search_state_invariant (Spec.on_seen P)); [exact Hvisit | | exact H0].
  intros st ys subreddit_name sort HI. exact HI.
Qed.

(** Every record that [visit] lets through matches the query. *)
Lemma visit_matches (query : string) (submission : praw.Submission) :
  preserves (Spec.on_seen (fun _ ys => Forall (Spec.matches query) ys))
    (Reddit.visit (T := T) query submission).
Proof.
  intros st ys HI. unfold Spec.on_seen in *. unfold Reddit.visit.
  destruct (decide _); [simpl; by rewrite app_nil_r|].
  unfold Reddit.query_in_submission.
  destruct (contains _ _ || contains _ _) eqn:Hfound; [| simpl; by rewrite app_nil_r].
  destruct (RedditSubmission.__init__ submission) as [r|e] eqn:Hr;
    [| simpl; by rewrite app_nil_r].
  simpl. apply Forall_app. split; [exact HI|]. apply Forall_singleton.
  apply init_fields in Hr as (_ & Ht & Hx & _).
  unfold Spec.matches. rewrite Ht, Hx.
  apply orb_true_iff in Hfound as [Hc|Hc]; apply contains_iff in Hc; auto.
Qed.

Lemma distinct_within_grow (seen seen' : gset string) (ys : list RedditSubmission.t) :
  seen ⊆ seen' -> Spec.distinct_within seen ys -> Spec.distinct_within seen' (ys ++ []).
Proof.
  intros Hsub [Hnd Hin]. rewrite app_nil_r. split; [exact Hnd|].
  intros i Hi. apply Hsub, Hin, Hi.
Qed.

Lemma distinct_within_add (seen : gset string) (ys : list RedditSubmission.t)
    (r : RedditSubmission.t) :
  RedditSubmission.id r ∉ seen -> Spec.distinct_within seen ys ->
  Spec.distinct_within ({[RedditSubmission.id r]} ∪ seen) (ys ++ [r]).
Proof.
  intros Hnew [Hnd Hin]. unfold Spec.distinct_within, Spec.ids in *.
  rewrite map_app. simpl. split.
  - apply NoDup_app. split; [exact Hnd|]. split; [| apply NoDup_singleton].
    intros i Hi Hi'. apply list_elem_of_singleton in Hi' as ->. apply Hnew, Hin, Hi.
  - intros i Hi. apply elem_of_app in Hi as [Hi|Hi].
    + apply elem_of_union_r, Hin, Hi.
    + apply list_elem_of_singleton in Hi as ->.
      apply elem_of_union_l, elem_of_singleton_2. reflexivity.
Qed.

Lemma visit_distinct (query : string) (submission : praw.Submission) :
  preserves (Spec.on_seen Spec.distinct_within) (Reddit.visit (T := T) query submission).
Proof.
  intros st ys HI. unfold Spec.on_seen in *. unfold Reddit.visit.
  destruct (decide _) as [Hseen|Hnew];
    [simpl; by apply (distinct_within_grow (Reddit.seen_ids st))|].
  destruct (Reddit.query_in_submission query submission) as [[] info].
  - destruct (RedditSubmission.__init__ submission) as [r|e] eqn:Hr; simpl.
    + apply init_fields in Hr as (Hid & _). rewrite <- Hid in *.
      by apply distinct_within_add.
    + apply (distinct_within_grow (Reddit.seen_ids st)); [set_solver | exact HI].
  - simpl. apply (distinct_within_grow (Reddit.seen_ids st)); [set_solver | exact HI].
Qed.

Lemma search_distinct (self : Reddit.t T) (query : string)
    (subreddits : Reddit.str_or_list) (time_filter : string) (limit : option Z)
    (search_sort : option string) :
  NoDup (Spec.ids
           (yielded
              (Reddit.search self query subreddits time_filter limit search_sort).2)).
Proof.
  destruct (search_invariant Spec.distinct_within self query subreddits time_filter limit
              search_sort) as (seen & Hnd & _).
  - intros submission. apply visit_distinct.
  - split; [constructor | intros i Hi; inversion Hi].
  - exact Hnd.
Qed.

(** *** [search_for_multiple_terms] *)

Lemma keep_new_distinct (submission : RedditSubmission.t) :
  preserves Spec.distinct_within (Reddit.keep_new submission).
Proof.
  intros s ys HI. unfold Reddit.keep_new.
  destruct (decide _) as [Hseen|Hnew]; simpl.
  - by apply (distinct_within_grow s).
  - by apply distinct_within_add.
Qed.

Lemma search_term_distinct (subreddit_name : Reddit.str_or_list)
    (search_sort : option string) (query : string) :
  preserves (fun st ys => Spec.distinct_within st.1 ys)
    (Reddit.search_term subreddit_name search_sort query).
Proof.
  intros [s self] ys HI. unfold Reddit.search_term. simpl in HI.
  destruct (String.eqb query ""); [simpl; by apply (distinct_within_grow s)|].
  destruct (Reddit.search _ _ _ _ _ _) as [self' found].
  pose proof (preserves_for_each Spec.distinct_within (yielded found) Reddit.keep_new
                (fun x _ => keep_new_distinct x) s ys HI) as Hkept.
  destruct (for_each (yielded found) Reddit.keep_new s) as [s' kept]. exact Hkept.
Qed.

Lemma search_for_multiple_terms_distinct (self : Reddit.t T) (search_terms : list string)
    (subreddit_name : Reddit.str_or_list) (search_sort : option string) :
  NoDup (Spec.ids
           (yielded (Reddit.search_for_multiple_terms self search_terms subreddit_name
                       search_sort).2)).
Proof.
  unfold Reddit.search_for_multiple_terms.
  pose proof (preserves_run (fun st ys => Spec.distinct_within st.1 ys)
                (for_each search_terms (Reddit.search_term subreddit_name search_sort))
                (∅, self))
    as Hrun.
  destruct (for_each _ _ _) as [[s self'] out]. apply Hrun.
  - apply preserves_for_each. intros q _. apply search_term_distinct.
  - split; [constructor | intros i Hi; inversion Hi].
Qed.

(** *** The calls that a search makes *)

Lemma issues_only_refl (P : praw.Request -> Prop) (self : Reddit.t T) :
  Spec.issues_only P self self.
Proof. exists []. by rewrite app_nil_r. Qed.

Lemma issues_only_trans (P : praw.Request -> Prop) (a b c : Reddit.t T) :
  Spec.issues_only P a b -> Spec.issues_only P b c -> Spec.issues_only P a c.
Proof.
  intros (n1 & H1 & F1) (n2 & H2 & F2). exists (n1 ++ n2).
  split; [by rewrite H2, H1, app_assoc | by apply Forall_app].
Qed.

Lemma issues_only_weaken (P Q : praw.Request -> Prop) (a b : Reddit.t T) :
  (forall r, P r -> Q r) -> Spec.issues_only P a b -> Spec.issues_only Q a b.
Proof.
  intros HPQ (n & Hn & Fn). exists n. split; [exact Hn|].
  eapply Forall_impl; [exact Fn | exact HPQ].
Qed.

Lemma visit_self (query : string) (submission : praw.Submission)
    (st : Reddit.search_state T) :
  Reddit.self (Reddit.visit query submission st).1 = Reddit.self st.
Proof.
  unfold Reddit.visit. destruct (decide _); [reflexivity|].
  destruct (Reddit.query_in_submission query submission) as [[] info]; [| reflexivity].
  by destruct (RedditSubmission.__init__ submission).
Qed.

(** Every call made by [search] is a search for its query. *)
Lemma search_issues (self : Reddit.t T) (query : string)
    (subreddits : Reddit.str_or_list) (time_filter : string) (limit : option Z)
    (search_sort : option string) :
  Spec.issues_only (Spec.asks_for query) self
    (Reddit.search self query subreddits time_filter limit search_sort).1.
Proof.
  destruct (search_state_invariant
              (fun st _ => Spec.issues_only (Spec.asks_for query) self (Reddit.self st))
              self query subreddits time_filter limit search_sort) as [seen Hseen].
  - intros submission st ys HI. by rewrite visit_self.
  - intros st ys subreddit_name sort HI. unfold Reddit._search.
    destruct (praw.subreddit_search _ _ _ _ _ _) as [listing remote]. simpl.
    apply (issues_only_trans _ _ _ _ HI).
    eexists. split; [reflexivity|]. apply Forall_singleton.
    by exists subreddit_name, sort, time_filter, limit.
  - apply issues_only_refl.
  - exact Hseen.
Qed.

Lemma search_term_issues (terms : list string) (self0 : Reddit.t T)
    (subreddit_name : Reddit.str_or_list) (search_sort : option string)
    (query : string) :
  query ∈ terms ->
  preserves
    (fun st _ =>
       Spec.issues_only (fun r => exists t, t ∈ terms /\ t <> "" /\ Spec.asks_for t r)
         self0 st.2)
    (Reddit.search_term subreddit_name search_sort query).
Proof.
  intros Hin [s self] ys HI. unfold Reddit.search_term. simpl in HI.
  destruct (String.eqb_spec query "") as [->|Hne]; [exact HI|].
  pose proof (search_issues self query subreddit_name Reddit.TIME_FILTER_DEFAULT None
                search_sort) as Hsearch.
  destruct (Reddit.search _ _ _ _ _ _) as [self' found].
  destruct (for_each (yielded found) Reddit.keep_new s) as [s' kept]. simpl in *.
  apply (issues_only_trans _ _ _ _ HI).
  eapply issues_only_weaken; [| exact Hsearch]. intros r Hr. by exists query.
Qed.

Lemma search_for_multiple_terms_issues (self : Reddit.t T) (search_terms : list string)
    (subreddit_name : Reddit.str_or_list) (search_sort : option string) :
  Spec.issues_only
    (fun r => exists t, t ∈ search_terms /\ t <> "" /\ Spec.asks_for t r) self
    (Reddit.search_for_multiple_terms self search_terms subreddit_name search_sort).1.
Proof.
  unfold Reddit.search_for_multiple_terms.
  pose proof (preserves_run
                (fun st _ =>
                   Spec.issues_only
                     (fun r =>
                        exists t, t ∈ search_terms /\ t <> "" /\ Spec.asks_for t r)
                     self st.2)
                (for_each search_terms (Reddit.search_term subreddit_name search_sort))
                (∅, self)) as Hrun.
  destruct (for_each _ _ _) as [[s self'] out]. apply Hrun.
  - apply preserves_for_each. intros q Hq. by apply search_term_issues.
  - apply issues_only_refl.
Qed.

(** *** The threshold on the first channel *)

Lemma visit_size (query : string) (submission : praw.Submission)
    (st : Reddit.search_state T) :
  (size (Reddit.seen_ids (Reddit.visit query submission st).1)
   <= S (size (Reddit.seen_ids st)))%nat.
Proof.
  unfold Reddit.visit. destruct (decide _) as [Hin|Hnew]; [simpl; lia|].
  assert (size ({[praw.id submission]} ∪ Reddit.seen_ids st)
          = S (size (Reddit.seen_ids st))) as Hsize.
  { rewrite size_union by set_solver. by rewrite size_singleton. }
  destruct (Reddit.query_in_submission query submission) as [[] info];
    [destruct (RedditSubmission.__init__ submission)|]; simpl; lia.
Qed.

Lemma for_each_visit_state (query : string) (l : list praw.Submission)
    (st : Reddit.search_state T) :
  Reddit.self (for_each l (Reddit.visit query) st).1 = Reddit.self st /\
  (size (Reddit.seen_ids (for_each l (Reddit.visit query) st).1)
   <= size (Reddit.seen_ids st) + length l)%nat.
Proof.
  revert st. induction l as [|x l IH]; intros st; [simpl; split; [reflexivity | lia]|].
  cbn [for_each]. unfold and_then.
  pose proof (visit_self query x st) as Hself.
  pose proof (visit_size query x st) as Hsize.
  destruct (Reddit.visit query x st) as [st1 o1]. simpl in Hself, Hsize.
  destruct (raised o1); [simpl; split; [exact Hself | lia]|].
  destruct (IH st1) as [Hself' Hsize'].
  destruct (for_each l (Reddit.visit query) st1) as [st2 o2]. simpl in *.
  split; [congruence | lia].
Qed.

(** X3. On a single channel with no sort given, a first listing of fewer than
    250 submissions is the only one asked for. *)
Lemma single_channel_short_circuit (self : Reddit.t T) (query subreddit_name : string)
    (time_filter : string) (limit : option Z) :
  let first :=
    praw.Search subreddit_name (Spec.quoted query) "relevance" time_filter limit in
  Z.of_nat
    (length (items (praw.subreddit_search subreddit_name (Spec.quoted query) "relevance"
                      time_filter limit (Reddit.reddit self)).1)) < 250 ->
  Reddit.issued
    (Reddit.search self query (Reddit.Str subreddit_name) time_filter limit None).1
  = Reddit.issued self ++ [first].
Proof.
  intros first Hshort. unfold Reddit.search. cbn [for_each].
  unfold and_then at 1. unfold Reddit.search_subreddit, and_then at 1.
  unfold Reddit.scan, Reddit._search. fold (Spec.quoted query).
  destruct (praw.subreddit_search _ _ _ _ _ _) as [listing remote]. simpl in Hshort.
  unfold and_then at 1.
  match goal with
  | |- context [for_each (items listing) (Reddit.visit query) ?st] =>
      destruct (for_each_visit_state query (items listing) st) as [Hself Hsize];
      destruct (for_each (items listing) (Reddit.visit query) st) as [st1 o1]
  end.
  cbn [Reddit.seen_ids Reddit.self fst] in Hself, Hsize. rewrite size_empty in Hsize.
  assert ((250 <=? Z.of_nat (size (Reddit.seen_ids st1))) = false) as Hfew.
  { apply Z.leb_gt. lia. }
  destruct st1 as [seen1 self1]. cbn [Reddit.self Reddit.seen_ids] in Hself, Hfew.
  subst self1.
  destruct o1 as [ys1 [e1|]]; cbn [raised yielded fst snd]; [reflexivity|].
  unfold end_of. destruct (failure listing); cbn [throw skip raised yielded fst snd];
    [reflexivity|].
  cbn [Reddit.seen_ids]. rewrite Hfew. reflexivity.
Qed.

(** Stepping over the terms that the loop skips changes nothing. *)
Lemma and_then_skip {S Y : Type} (g : Gen S Y) (s : S) : and_then skip g s = g s.
Proof. unfold and_then, skip. by destruct (g s) as [s2 [ys e]]. Qed.

Lemma for_each_filter {S Y A : Type} (keep : A -> bool) (body : A -> Gen S Y)
    (l : list A) (s : S) :
  (forall x s, keep x = false -> body x s = skip s) ->
  for_each l body s = for_each (List.filter keep l) body s.
Proof.
  intros Hskip. revert s. induction l as [|x l IH]; intros s; [reflexivity|].
  cbn [for_each List.filter]. destruct (keep x) eqn:Hx.
  - cbn [for_each]. unfold and_then. destruct (body x s) as [s1 o1].
    destruct (raised o1); [reflexivity|]. by rewrite IH.
  - rewrite <- IH. unfold and_then. rewrite (Hskip x s Hx). simpl.
    by destruct (for_each l body s) as [s2 [ys e]].
Qed.

Lemma search_term_empty (subreddit_name : Reddit.str_or_list)
    (search_sort : option string) (query : string) (st : gset string * Reddit.t T) :
  negb (String.eqb query "") = false ->
  Reddit.search_term subreddit_name search_sort query st = skip st.
Proof.
  intros Hq. apply negb_false_iff in Hq. destruct st as [s self].
  unfold Reddit.search_term. by rewrite Hq.
Qed.

(** Fed with records of distinct, unseen ids, the inner loop lets all of
    them through. *)
Lemma keep_new_all (l : list RedditSubmission.t) (s : gset string) :
  NoDup (Spec.ids l) -> (forall i, i ∈ Spec.ids l -> i ∉ s) ->
  yielded (for_each l Reddit.keep_new s).2 = l.
Proof.
  revert s. induction l as [|r l IH]; intros s Hnd Hnew; [reflexivity|].
  apply NoDup_cons in Hnd as [Hr Hnd].
  cbn [for_each]. unfold and_then, Reddit.keep_new at 1.
  destruct (decide _) as [Hin|_]; [exfalso; apply (Hnew _ (list_elem_of_here _ _) Hin)|].
  simpl.
  specialize (IH ({[RedditSubmission.id r]} ∪ s) Hnd).
  destruct (for_each l Reddit.keep_new _) as [s' kept]. simpl in *.
  rewrite IH; [reflexivity|].
  intros i Hi [Heq%elem_of_singleton|Hs]%elem_of_union.
  - subst i. by apply Hr.
  - apply (Hnew i); [by apply list_elem_of_further | exact Hs].
Qed.

(** One non-empty term after an empty one: the run is the run of the single
    search for that term. *)
Lemma search_after_empty_term (self : Reddit.t T) (query : string)
    (subreddit_name : Reddit.str_or_list) (search_sort : option string) :
  query <> "" ->
  Reddit.search_for_multiple_terms self [""; query] subreddit_name search_sort =
  Reddit.search self query subreddit_name Reddit.TIME_FILTER_DEFAULT None search_sort.
Proof.
  intros Hne. unfold Reddit.search_for_multiple_terms.
  rewrite (for_each_filter (fun t => negb (String.eqb t "")))
    by (intros; by apply search_term_empty).
  apply String.eqb_neq in Hne. cbn [List.filter String.eqb negb]. rewrite Hne.
  cbn [negb for_each]. unfold and_then, Reddit.search_term. rewrite Hne.
  pose proof (search_distinct self query subreddit_name Reddit.TIME_FILTER_DEFAULT None
                search_sort) as Hnd.
  destruct (Reddit.search _ _ _ _ _ _) as [self' [found e]]. simpl in Hnd.
  pose proof (keep_new_all found ∅ Hnd) as Hall. cbn [yielded raised].
  destruct (for_each found Reddit.keep_new ∅) as [s' kept]. simpl in *.
  rewrite Hall by (intros i _; apply not_elem_of_empty).
  destruct e; simpl; [reflexivity|]. by rewrite app_nil_r.
Qed.

(** A search for a term with characters in it is not a search for the empty
    term. *)
Lemma lower_empty (t : string) : lower t = "" -> t = "".
Proof. by destruct t. Qed.

Lemma asks_for_nonempty (t : string) (r : praw.Request) :
  t <> "" -> Spec.asks_for t r -> ~ Spec.asks_for "" r.
Proof.
  intros Hne (n1 & s1 & f1 & l1 & ->) (n2 & s2 & f2 & l2 & Heq).
  assert (Hq : Spec.quoted t = Spec.quoted "") by congruence.
  apply Hne, lower_empty. unfold Spec.quoted in Hq. injection Hq as Hq.
  change (lower "") with "" in Hq. rewrite append_nil in Hq.
  destruct (lower t) as [|c s]; [reflexivity|].
  rewrite append_cons in Hq. injection Hq as _ Hq.
  destruct s; discriminate.
Qed.

End Search.

(** ** ISO dates compare as dates *)

(** Goals on quotients and remainders by constants. *)
Ltac div_mod_lia := Z.div_mod_to_equations; lia.

Lemma compare_cons (c1 c2 : ascii) (s1 s2 : string) :
  String.compare (String c1 s1) (String c2 s2) =
  Spec.lex (Ascii.compare c1 c2) (String.compare s1 s2).
Proof. simpl. by destruct (Ascii.compare c1 c2). Qed.

Lemma digit_compare (a b : Z) :
  0 <= a <= 9 -> 0 <= b <= 9 -> Ascii.compare (digit a) (digit b) = (a ?= b).
Proof.
  intros Ha Hb.
  assert (a = 0 \/ a = 1 \/ a = 2 \/ a = 3 \/ a = 4 \/ a = 5 \/ a = 6 \/ a = 7 \/
          a = 8 \/ a = 9) as Ha' by lia.
  assert (b = 0 \/ b = 1 \/ b = 2 \/ b = 3 \/ b = 4 \/ b = 5 \/ b = 6 \/ b = 7 \/
          b = 8 \/ b = 9) as Hb' by lia.
  clear Ha Hb.
  repeat (destruct Ha' as [->|Ha']); try subst a;
    repeat (destruct Hb' as [->|Hb']); try subst b; reflexivity.
Qed.

Lemma lex_decimal (base a b c d : Z) :
  0 < base -> 0 <= b < base -> 0 <= d < base ->
  Spec.lex (a ?= c) (b ?= d) = (a * base + b ?= c * base + d).
Proof.
  intros Hbase Hb Hd. unfold Spec.lex.
  destruct (Z.compare_spec a c) as [->|Hlt|Hgt].
  - destruct (Z.compare_spec b d) as [->|Hlt|Hgt]; symmetry.
    + apply Z.compare_eq_iff. reflexivity.
    + apply Z.compare_lt_iff. lia.
    + apply Z.compare_gt_iff. lia.
  - symmetry. apply Z.compare_lt_iff. nia.
  - symmetry. apply Z.compare_gt_iff. nia.
Qed.

Lemma lex_assoc (c1 c2 c3 : comparison) :
  Spec.lex c1 (Spec.lex c2 c3) = Spec.lex (Spec.lex c1 c2) c3.
Proof. by destruct c1. Qed.

Lemma two_digits_compare (m n : Z) :
  0 <= m -> 0 <= n -> Spec.lex (m / 10 ?= n / 10) (m mod 10 ?= n mod 10) = (m ?= n).
Proof.
  intros Hm Hn.
  rewrite (lex_decimal 10) by div_mod_lia.
  f_equal; div_mod_lia.
Qed.

Lemma pad2_compare (m n : Z) (s t : string) :
  0 <= m < 100 -> 0 <= n < 100 ->
  String.compare (pad2 m +:+ s) (pad2 n +:+ t) = Spec.lex (m ?= n) (String.compare s t).
Proof.
  intros Hm Hn. unfold pad2. rewrite !append_cons, !append_nil, !compare_cons.
  rewrite !digit_compare by div_mod_lia.
  rewrite lex_assoc, two_digits_compare by lia. reflexivity.
Qed.

Lemma pad4_compare (m n : Z) (s t : string) :
  0 <= m < 10000 -> 0 <= n < 10000 ->
  String.compare (pad4 m +:+ s) (pad4 n +:+ t) = Spec.lex (m ?= n) (String.compare s t).
Proof.
  intros Hm Hn. unfold pad4. rewrite !append_cons, !compare_cons.
  rewrite pad2_compare by div_mod_lia.
  rewrite !digit_compare by div_mod_lia.
  rewrite !lex_assoc.
  replace (m / 1000) with (m / 100 / 10) by div_mod_lia.
  replace (n / 1000) with (n / 100 / 10) by div_mod_lia.
  rewrite two_digits_compare by div_mod_lia.
  rewrite (lex_decimal 100) by div_mod_lia.
  do 2 f_equal; div_mod_lia.
Qed.

Lemma date_bounds (d : date) :
  1 <= year d <= 9999 /\ 1 <= month d <= 12 /\ 1 <= day d <= 31.
Proof.
  pose proof (date_wf d) as Hwf. unfold valid_ymd in Hwf.
  repeat (apply andb_true_iff in Hwf as [Hwf ?]).
  assert (days_in_month (year d) (month d) <= 31).
  { unfold days_in_month. repeat case_match; lia. }
  lia.
Qed.

(** Comparing the ISO forms of two dates as strings is comparing the dates. *)
Lemma isoformat_compare (a b : date) :
  String.compare (isoformat a) (isoformat b) = date_compare a b.
Proof.
  pose proof (date_bounds a) as (Hy & Hm & Hd).
  pose proof (date_bounds b) as (Hy' & Hm' & Hd').
  unfold isoformat, date_compare.
  rewrite pad4_compare by lia. rewrite ?append_cons, ?append_nil, compare_cons.
  rewrite pad2_compare by lia. rewrite ?append_cons, ?append_nil, compare_cons.
  assert (String.compare (pad2 (day a)) (pad2 (day b)) = (day a ?= day b)) as ->.
  { unfold pad2. rewrite !compare_cons.
    rewrite !digit_compare by div_mod_lia.
    rewrite lex_assoc, two_digits_compare by lia. simpl. by destruct (day a ?= day b). }
  unfold Spec.lex. simpl (Ascii.compare _ _).
  by destruct (year a ?= year b), (month a ?= month b).
Qed.

Lemma str_gt_isoformat (a b : date) :
  str_gt (isoformat a) (isoformat b) = true <-> date_lt b a.
Proof.
  unfold str_gt, String.ltb, date_lt. rewrite isoformat_compare.
  destruct (date_compare b a); split; congruence.
Qed.

Lemma date_compare_antisym (a b : date) :
  date_compare b a = CompOpp (date_compare a b).
Proof.
  unfold date_compare.
  rewrite (Z.compare_antisym (year a)), (Z.compare_antisym (month a)),
    (Z.compare_antisym (day a)).
  by destruct (year a ?= year b), (month a ?= month b), (day a ?= day b).
Qed.

Lemma date_lt_not_le (a b : date) : date_lt a b <-> ~ date_le b a.
Proof.
  unfold date_lt, date_le. rewrite (date_compare_antisym a b).
  destruct (date_compare a b); simpl; split; try congruence; intros Hn; by destruct Hn.
Qed.

(** ** Invariants of the windowed fetchers *)

Section Fetch.
Context {T : Type} {transport : praw.Transport T} {clock : Clock}.

Lemma new_in_subreddit_preserves
    (P : gset string -> list RedditSubmission.t -> Prop)
    (filter_date : string) (limit : option Z) (subreddit_name : string) :
  (forall submission,
     preserves (Spec.on_seen P) (hatinh.keep_recent (T := T) filter_date submission)) ->
  preserves (Spec.on_seen P) (hatinh.new_in_subreddit filter_date limit subreddit_name).
Proof.
  intros Hkeep st ys HI. unfold hatinh.new_in_subreddit.
  destruct (praw.subreddit_new _ _ _) as [listing remote].
  apply preserves_and_then; auto with gen.
Qed.

Lemma new_by_user_preserves
    (P : gset string -> list RedditSubmission.t -> Prop)
    (filter_date : string) (limit : option Z) (user : string) :
  (forall submission,
     preserves (Spec.on_seen P) (hatinh.keep_recent (T := T) filter_date submission)) ->
  preserves (Spec.on_seen P) (hatinh.new_by_user filter_date limit user).
Proof.
  intros Hkeep st ys HI. unfold hatinh.new_by_user.
  destruct (praw.redditor_new _ _ _) as [listing remote].
  apply preserves_and_then; [| apply preserves_end_of | exact HI].
  apply preserves_for_each. intros [submission|comment] _; simpl.
  - apply Hkeep.
  - apply preserves_skip.
Qed.

Lemma returned_OK {A : Type} (out : Stream A) (l : list A) :
  hatinh.returned out = OK l -> yielded out = l.
Proof. unfold hatinh.returned. destruct (raised out); congruence. Qed.

(** An invariant of [keep_recent] holds of what either fetcher returns. *)
Lemma fetch_invariant
    (P : string -> gset string -> list RedditSubmission.t -> Prop)
    (names : list string) (collection_period : string) (reddit : Reddit.t T)
    (limit : option Z) (results : list RedditSubmission.t) :
  (forall filter_date submission,
     preserves (Spec.on_seen (P filter_date))
       (hatinh.keep_recent (T := T) filter_date submission)) ->
  (forall filter_date, P filter_date ∅ []) ->
  hatinh.FetchRedditSubmissionsInSubreddits names collection_period reddit limit
    = OK results \/
  hatinh.FetchRedditSubmissionsByUsers names collection_period reddit limit
    = OK results ->
  exists filter_date seen,
    hatinh.filter_date_of collection_period = OK filter_date /\
    P filter_date seen results.
Proof.
  intros Hkeep H0 Hfetch.
  unfold hatinh.FetchRedditSubmissionsInSubreddits,
    hatinh.FetchRedditSubmissionsByUsers, bind in Hfetch.
  destruct (hatinh.filter_date_of collection_period) as [filter_date|];
    [| destruct Hfetch; discriminate].
  exists filter_date.
  destruct Hfetch as [Hfetch|Hfetch]; apply returned_OK in Hfetch; subst results;
    eexists; (split; [reflexivity|]);
    apply (preserves_run (Spec.on_seen (P filter_date))); try apply H0;
    apply preserves_for_each; intros x _.
  - by apply new_in_subreddit_preserves.
  - by apply new_by_user_preserves.
Qed.

Lemma keep_recent_distinct (filter_date : string) (submission : praw.Submission) :
  preserves (Spec.on_seen Spec.distinct_within)
    (hatinh.keep_recent (T := T) filter_date submission).
Proof.
  intros st ys HI. unfold Spec.on_seen in *. unfold hatinh.keep_recent.
  destruct (decide _) as [Hseen|Hnew];
    [simpl; by apply (distinct_within_grow (Reddit.seen_ids st))|].
  destruct (RedditSubmission.__init__ submission) as [r|e] eqn:Hr.
  - apply init_fields in Hr as (Hid & _). rewrite <- Hid in *.
    destruct (str_gt _ _); simpl.
    + by apply distinct_within_add.
    + apply (distinct_within_grow (Reddit.seen_ids st)); [set_solver | exact HI].
  - simpl. apply (distinct_within_grow (Reddit.seen_ids st)); [set_solver | exact HI].
Qed.

Lemma keep_recent_after (filter_date : string) (submission : praw.Submission) :
  preserves (Spec.on_seen (fun _ ys => Forall (Spec.after_filter_date filter_date) ys))
    (hatinh.keep_recent (T := T) filter_date submission).
Proof.
  intros st ys HI. unfold Spec.on_seen in *. unfold hatinh.keep_recent.
  destruct (decide _); [simpl; by rewrite app_nil_r|].
  destruct (RedditSubmission.__init__ submission) as [r|e] eqn:Hr;
    [| simpl; by rewrite app_nil_r].
  destruct (str_gt _ _) eqn:Hgt; simpl; [| by rewrite app_nil_r].
  apply Forall_app. split; [exact HI|]. apply Forall_singleton.
  apply init_fields in Hr as (_ & _ & _ & _ & _ & d & _ & Hd).
  split; [by exists d | exact Hgt].
Qed.

(** The cut-off string is the ISO form of today minus the period's days. *)
Lemma filter_date_of_OK (collection_period filter_date : string) :
  hatinh.filter_date_of collection_period = OK filter_date ->
  exists days cutoff,
    (collection_period, days) ∈ Spec.period_days /\
    sub_days today days = OK cutoff /\
    filter_date = isoformat cutoff.
Proof.
  unfold hatinh.filter_date_of. destruct (negb _) eqn:Hin; [discriminate|].
  apply negb_false_iff, existsb_exists in Hin as (p & Hp & Heq).
  apply String.eqb_eq in Heq as <-. simpl in Hp.
  destruct Hp as [<-|[<-|[<-|[<-|[]]]]];
    (match goal with
     | |- context [dict ?l !! ?k] =>
         let v := eval vm_compute in (dict l !! k) in
         change (dict l !! k) with v
     end);
    unfold bind;
    (match goal with
     | |- context [sub_days today ?n] =>
         destruct (sub_days today n) as [cutoff|] eqn:Hsub; [| discriminate];
         intros [= <-]; exists n, cutoff;
         split; [unfold Spec.period_days; set_solver | by split]
     end).
Qed.

End Fetch.

(** ** Aggregation *)

Section Aggregation.
Context {clock : Clock}.

Lemma zip_star_rows (s : RedditSubmission.t) (l : list RedditSubmission.t) :
  zip_star (map RedditAggregationData.row (s :: l)) =
  [map (fun _ => 1) (s :: l);
   map RedditSubmission.comments (s :: l);
   map RedditSubmission.upvotes (s :: l);
   map RedditSubmission.downvotes (s :: l)].
Proof.
  revert s. induction l as [|s' l IH]; intros s; [reflexivity|].
  change (zip_star (map RedditAggregationData.row (s :: s' :: l)))
    with (zip_with cons (RedditAggregationData.row s)
            (zip_star (map RedditAggregationData.row (s' :: l)))).
  rewrite IH. reflexivity.
Qed.

Lemma sum_from (l : list Z) (a : Z) : fold_left Z.add l a = a + fold_left Z.add l 0.
Proof.
  revert a. induction l as [|x l IH]; intros a; cbn [fold_left]; [lia|].
  rewrite (IH (a + x)), (IH (0 + x)). lia.
Qed.

Lemma sum_map (f : RedditSubmission.t -> Z) (l : list RedditSubmission.t) :
  Py.sum (map f l) = Spec.total f l.
Proof.
  unfold Py.sum. induction l as [|x l IH]; [reflexivity|].
  cbn [map fold_left Spec.total]. rewrite sum_from, IH. reflexivity.
Qed.

Lemma total_ones (l : list RedditSubmission.t) :
  Spec.total (fun _ => 1) l = Z.of_nat (length l).
Proof. induction l as [|x l IH]; simpl; [reflexivity|]. rewrite IH. lia. Qed.

Lemma total_nonneg (f : RedditSubmission.t -> Z) (l : list RedditSubmission.t) :
  Forall (fun r => 0 <= f r) l -> 0 <= Spec.total f l.
Proof. induction 1; simpl; lia. Qed.

(** The four lookups in the dictionary built from four sums. *)
Lemma getitem_four (a b c d : Z) :
  let gameData :=
    dict
      (zip ["submissions"; "comments"; "upvotes"; "downvotes"] [a; b; c; d]) in
  getitem gameData "submissions" = OK a /\
  getitem gameData "comments" = OK b /\
  getitem gameData "upvotes" = OK c /\
  getitem gameData "downvotes" = OK d.
Proof. repeat split; reflexivity. Qed.

(** On a bucket with a record in it the constructor succeeds with the sums. *)
Lemma init_cons (gameId : Z) (date : string) (s : RedditSubmission.t)
    (l : list RedditSubmission.t) :
  RedditAggregationData.__init__ gameId date (s :: l) =
  OK (RedditAggregationData.mk gameId date
        (Spec.total RedditSubmission.comments (s :: l))
        (Z.of_nat (length (s :: l)))
        (Spec.total RedditSubmission.upvotes (s :: l))
        (Spec.total RedditSubmission.downvotes (s :: l))
        (isoformat today)).
Proof.
  unfold RedditAggregationData.__init__.
  rewrite zip_star_rows.
  match goal with
  | |- context [map sum [?a; ?b; ?c; ?d]] =>
      change (map sum [a; b; c; d]) with [sum a; sum b; sum c; sum d]
  end.
  rewrite !sum_map, total_ones.
  match goal with
  | |- context [zip _ [?a; ?b; ?c; ?d]] =>
      destruct (getitem_four a b c d) as (-> & -> & -> & ->)
  end.
  reflexivity.
Qed.

(** On the empty bucket the first lookup fails. *)
Lemma init_nil (gameId : Z) (date : string) :
  RedditAggregationData.__init__ gameId date [] = Raise KeyError.
Proof. reflexivity. Qed.

(** *** Buckets are never empty *)

Lemma fold_left_invariant {A B : Type} (P : A -> Prop) (f : A -> B -> A)
    (l : list B) (a : A) :
  (forall a b, P a -> P (f a b)) -> P a -> P (fold_left f l a).
Proof.
  intros Hf. revert a. induction l as [|b l IH]; intros a Ha; simpl; [exact Ha|].
  apply IH, Hf, Ha.
Qed.

Lemma dd_append_Forall {A : Type} (P : list A -> Prop) (k : string) (v : A)
    (d : list (string * list A)) :
  P [v] -> (forall vs, P vs -> P (vs ++ [v])) ->
  Forall (fun kv => P kv.2) d -> Forall (fun kv => P kv.2) (hatinh.dd_append k v d).
Proof.
  intros Hone Hmore. induction 1 as [|[k' vs] d Hvs Hd IH]; simpl.
  - by repeat constructor.
  - destruct (String.eqb k k'); constructor; simpl; auto.
Qed.

Lemma by_date_nonempty (found : list RedditSubmission.t) :
  Forall (fun kv => kv.2 <> []) (hatinh.by_date found).
Proof.
  unfold hatinh.by_date.
  apply (fold_left_invariant (Forall (fun kv => kv.2 <> []))); [| constructor].
  intros d s Hd.
  apply (dd_append_Forall (fun vs => vs <> [])); [done | | exact Hd].
  intros vs _. by destruct vs.
Qed.

Lemma aggregate_game_counted (gameId : Z)
    (buckets : list (string * list RedditSubmission.t))
    (agg : list (string * list RedditAggregationData.t)) :
  Forall (fun kv => kv.2 <> []) buckets ->
  Forall (fun kv => Spec.counted kv.2) agg ->
  exists agg',
    hatinh.aggregate_game gameId buckets agg = OK agg' /\
    Forall (fun kv => Spec.counted kv.2) agg'.
Proof.
  intros Hne. revert agg.
  induction Hne as [|[d subs] buckets Hsubs _ IH]; intros agg Hagg.
  - exists agg. by split.
  - simpl in Hsubs. destruct subs as [|s subs]; [done|].
    cbn [hatinh.aggregate_game]. rewrite init_cons. cbn [bind].
    apply IH. apply (dd_append_Forall Spec.counted).
    + repeat constructor. simpl. lia.
    + intros vs Hvs. apply Forall_app. split; [exact Hvs|].
      repeat constructor. simpl. lia.
    + exact Hagg.
Qed.

Lemma aggregate_game_total (gameId : Z)
    (buckets : list (string * list RedditSubmission.t))
    (agg : list (string * list RedditAggregationData.t)) :
  Forall (fun kv => kv.2 <> []) buckets ->
  exists agg', hatinh.aggregate_game gameId buckets agg = OK agg'.
Proof.
  intros Hne. revert agg. induction Hne as [|[d subs] buckets Hsubs _ IH]; intros agg.
  - by exists agg.
  - simpl in Hsubs. destruct subs as [|s subs]; [done|].
    cbn [hatinh.aggregate_game]. rewrite init_cons. cbn [bind]. apply IH.
Qed.

Lemma insert_by_key_Forall {A : Type} (P : string * A -> Prop) (x : string * A)
    (l : list (string * A)) :
  P x -> Forall P l -> Forall P (hatinh.insert_by_key x l).
Proof.
  intros Hx. induction 1 as [|y l Hy Hl IH]; simpl.
  - by repeat constructor.
  - destruct (String.ltb x.1 y.1); repeat constructor; auto.
Qed.

Lemma sorted_by_key_Forall {A : Type} (P : string * A -> Prop) (l : list (string * A)) :
  Forall P l -> Forall P (hatinh.sorted_by_key l).
Proof.
  unfold hatinh.sorted_by_key. intros Hl.
  assert (Hacc : Forall P (@nil (string * A))) by constructor.
  revert Hacc. generalize (@nil (string * A)) as acc.
  induction Hl as [|x l Hx Hl IH]; intros acc Hacc; simpl; [exact Hacc|].
  apply IH. by apply insert_by_key_Forall.
Qed.

Lemma od_set_Forall {A : Type} (P : A -> Prop) (k : string) (v : A)
    (od : list (string * A)) :
  P v -> Forall (fun kv => P kv.2) od -> Forall (fun kv => P kv.2) (hatinh.od_set k v od).
Proof.
  intros Hv. induction 1 as [|[k' v'] od Hv' Hod IH]; simpl.
  - by repeat constructor.
  - destruct (String.eqb k k'); constructor; simpl; auto.
Qed.

Lemma od_of_items_Forall {A : Type} (P : A -> Prop) (l : list (string * A)) :
  Forall (fun kv => P kv.2) l ->
  Forall (fun kv => P kv.2) (fold_left (fun od kv => hatinh.od_set kv.1 kv.2 od) l []).
Proof.
  intros Hl.
  assert (Hacc : Forall (fun kv : string * A => P kv.2) []) by constructor.
  revert Hacc. generalize (@nil (string * A)) as acc.
  induction Hl as [|x l Hx Hl IH]; intros acc Hacc; simpl; [exact Hacc|].
  apply IH. by apply od_set_Forall.
Qed.

End Aggregation.

Section Games.
Context {T : Type} {transport : praw.Transport T} {clock : Clock}.

Lemma collect_games_counted (reddit : Reddit.t T) (subreddits : string)
    (games : list Game.t) (agg agg' : list (string * list RedditAggregationData.t)) :
  hatinh.collect_games reddit subreddits games agg = OK agg' ->
  Forall (fun kv => Spec.counted kv.2) agg -> Forall (fun kv => Spec.counted kv.2) agg'.
Proof.
  revert reddit agg. induction games as [|game games IH]; intros reddit agg Hrun Hagg.
  - simpl in Hrun. by injection Hrun as <-.
  - cbn [hatinh.collect_games] in Hrun.
    destruct (Reddit.search_for_multiple_terms _ _ _ _) as [reddit' found].
    destruct (raised found); [discriminate|].
    destruct (aggregate_game_counted (Game.gameId game) (hatinh.by_date (yielded found))
                agg (by_date_nonempty _) Hagg) as (agg1 & Hagg1 & Hcounted).
    rewrite Hagg1 in Hrun. cbn [bind] in Hrun. by apply (IH reddit' agg1).
Qed.

End Games.

(** ** Floats: truncation against floor *)

Lemma binary_round_aux_sign (sx : bool) (mx ex : Z) (lx : location) :
  binary_round_aux prec emax sx mx ex lx = S754_nan \/
  Spec.is_negative (binary_round_aux prec emax sx mx ex lx) = sx.
Proof.
  unfold binary_round_aux.
  destruct (shr_fexp prec emax mx ex lx) as [mrs1 e1].
  destruct (shr_fexp prec emax _ e1 loc_Exact) as [mrs2 e2].
  destruct (shr_m mrs2); [by right | | by left].
  destruct (e2 <=? emax - prec); by right.
Qed.

Lemma float_of_int_sign (n : Z) (x : float) :
  float_of_int n = OK x -> 0 <= n -> Spec.is_negative x = false.
Proof.
  unfold float_of_int, binary_normalize. intros Hx Hn.
  destruct n as [|p|p]; [by injection Hx as <- | | lia].
  unfold binary_round in Hx. destruct (shl_align _ _ _) as [mz ez].
  destruct (binary_round_aux_sign false (Z.pos mz) ez loc_Exact) as [Hnan|Hsign].
  - rewrite Hnan in Hx. by injection Hx as <-.
  - destruct (binary_round_aux _ _ _ _ _ _); try discriminate;
      by injection Hx as <-.
Qed.

Lemma SFdiv_sign (x y : float) :
  Spec.is_negative x = false -> Spec.is_negative y = false ->
  Spec.is_negative (SFdiv prec emax x y) = false.
Proof.
  intros Hx Hy. destruct x, y; cbn [Spec.is_negative] in *; subst;
    unfold SFdiv; try reflexivity.
  destruct (SFdiv_core_binary _ _ _ _ _ _) as [[mz ez] lz].
  change (xorb false false) with false.
  by destruct (binary_round_aux_sign false mz ez lz) as [->| ->].
Qed.

(** [int] agrees with the floor on floats whose sign bit is clear and with
    the ceiling on the others. *)
Lemma int_of_float_nonneg (q : float) :
  Spec.is_negative q = false -> int_of_float q = Spec.floor q.
Proof. destruct q; simpl; intros Hs; subst; reflexivity. Qed.

Lemma int_of_float_neg (q : float) :
  Spec.is_negative q = true -> int_of_float q = Spec.ceil q.
Proof. destruct q; simpl; intros Hs; subst; try discriminate; reflexivity. Qed.

(** Below one unit in the last place, [Spec.floor] is the rounded-down
    quotient and [int] the truncated one. *)
Lemma floor_finite (s : bool) (m : positive) (e : Z) :
  e < 0 ->
  Spec.floor (S754_finite s m e) = OK (cond_Zopp s (Z.pos m) / 2 ^ (- e)).
Proof. intros He. simpl. by rewrite Z.shiftl_div_pow2 by lia. Qed.

Lemma int_of_float_finite (s : bool) (m : positive) (e : Z) :
  e < 0 ->
  int_of_float (S754_finite s m e) = OK (cond_Zopp s (Z.pos m) ÷ 2 ^ (- e)).
Proof.
  intros He. simpl. rewrite Z.shiftl_div_pow2 by lia.
  assert (0 < 2 ^ (- e)) by (apply Z.pow_pos_nonneg; lia).
  destruct s; simpl.
  - change (Z.neg m) with (- Z.pos m). rewrite Z.quot_opp_l by lia.
    by rewrite Z.quot_div_nonneg by lia.
  - by rewrite Z.quot_div_nonneg by lia.
Qed.

(** * The claims *)

Section Claims.
Context {T : Type} {transport : praw.Transport T} {clock : Clock}.

(** C1. Whatever the transport answers, every record yielded by
    [Reddit.search] has the lower-cased query as a substring of its
    lower-cased title or of its lower-cased body text. *)
Theorem search_yields_only_matches (self : Reddit.t T) (query : string)
    (subreddits : Reddit.str_or_list) (time_filter : string) (limit : option Z)
    (search_sort : option string) (r : RedditSubmission.t) :
  In r (yielded (Reddit.search self query subreddits time_filter limit search_sort).2) ->
  Spec.is_substring (lower query) (lower (RedditSubmission.title r)) \/
  Spec.is_substring (lower query) (lower (RedditSubmission.text r)).
Proof.
  intros Hr.
  destruct (search_invariant (fun _ ys => Forall (Spec.matches query) ys) self query
              subreddits time_filter limit search_sort) as [_ Hall].
  - intros submission. apply visit_matches.
  - constructor.
  - rewrite Forall_forall in Hall. apply Hall, list_elem_of_In, Hr.
Qed.

(** C2. Within one call to [Reddit.search], to
    [Reddit.search_for_multiple_terms] or to either windowed fetcher, and
    whatever the transport answers, no two records yielded or returned share
    an id. *)
Theorem ids_unique_within_a_call (self : Reddit.t T) (query : string)
    (subreddits : Reddit.str_or_list) (time_filter : string) (limit : option Z)
    (search_sort : option string) (search_terms names : list string)
    (collection_period : string) :
  NoDup (Spec.ids
           (yielded (Reddit.search self query subreddits time_filter limit
                       search_sort).2)) /\
  NoDup (Spec.ids
           (yielded (Reddit.search_for_multiple_terms self search_terms subreddits
                       search_sort).2)) /\
  (forall results,
     hatinh.FetchRedditSubmissionsInSubreddits names collection_period self limit
       = OK results \/
     hatinh.FetchRedditSubmissionsByUsers names collection_period self limit
       = OK results ->
     NoDup (Spec.ids results)).
Proof.
  split; [apply search_distinct|]. split; [apply search_for_multiple_terms_distinct|].
  intros results Hfetch.
  destruct (fetch_invariant (fun _ => Spec.distinct_within) names collection_period self
              limit results) as (filter_date & seen & _ & Hnd & _).
  - intros filter_date submission. apply keep_recent_distinct.
  - intros _. split; [constructor | intros i Hi; inversion Hi].
  - exact Hfetch.
  - exact Hnd.
Qed.

(** C4, as amended. When the upvote ratio is 0 the downvotes are 0.
    Otherwise they are the float quotient score / ratio, truncated toward
    zero, minus the score: its floor when the quotient's sign bit is clear,
    its ceiling when it is set.  For a score of 0 or more and a ratio above 0
    that is floor(score / ratio) - score. *)
Theorem downvotes_truncate_toward_zero (submission : praw.Submission)
    (r : RedditSubmission.t) :
  RedditSubmission.__init__ submission = OK r ->
  let score := praw.score submission in
  let ratio := praw.upvote_ratio submission in
  (float_is_zero ratio = true /\ RedditSubmission.downvotes r = 0) \/
  (float_is_zero ratio = false /\
   exists q n,
     int_truediv_float score ratio = OK q /\
     RedditSubmission.downvotes r = n - score /\
     (if Spec.is_negative q then Spec.ceil q = OK n else Spec.floor q = OK n) /\
     (0 <= score -> Spec.is_negative ratio = false ->
      Spec.downvoteEstimate score ratio = OK (RedditSubmission.downvotes r))).
Proof.
  intros Hr score ratio. unfold RedditSubmission.__init__, bind in Hr.
  destruct (fromtimestamp _) as [d|]; [|discriminate].
  fold score ratio in Hr. destruct (float_is_zero ratio) eqn:Hzero.
  - left. injection Hr as <-. by split.
  - right. split; [reflexivity|].
    destruct (int_truediv_float score ratio) as [q|] eqn:Hq; [|discriminate].
    destruct (int_of_float q) as [n|] eqn:Hn; [|discriminate].
    injection Hr as <-. exists q, n. simpl.
    split; [reflexivity|]. split; [reflexivity|]. split.
    + destruct (Spec.is_negative q) eqn:Hs.
      * by rewrite <- int_of_float_neg.
      * by rewrite <- int_of_float_nonneg.
    + intros Hscore Hratio. unfold Spec.downvoteEstimate, bind.
      rewrite Hzero, Hq. rewrite <- int_of_float_nonneg, Hn; [reflexivity|].
      unfold int_truediv_float, bind in Hq.
      destruct (float_of_int score) as [x|] eqn:Hx; [|discriminate].
      unfold float_truediv in Hq. rewrite Hzero in Hq. injection Hq as <-.
      apply SFdiv_sign; [| exact Hratio]. by apply (float_of_int_sign score).
Qed.

(** C8. When a windowed fetcher returns, the period is one of D, W, M, Y
    with 1, 7, 30, 365 days, and with the cut-off set at today minus those
    days every returned record was created strictly after the cut-off; the
    record of a submission created on or before the cut-off is not
    returned. *)
Theorem fetch_returns_only_after_cutoff (names : list string)
    (collection_period : string) (reddit : Reddit.t T) (limit : option Z)
    (results : list RedditSubmission.t) :
  hatinh.FetchRedditSubmissionsInSubreddits names collection_period reddit limit
    = OK results \/
  hatinh.FetchRedditSubmissionsByUsers names collection_period reddit limit
    = OK results ->
  exists days cutoff,
    In (collection_period, days) Spec.period_days /\
    sub_days today days = OK cutoff /\
    (forall r, In r results ->
       exists d, RedditSubmission.created r = isoformat d /\
                 date_lt cutoff d /\ ~ date_le d cutoff) /\
    (forall submission r d,
       RedditSubmission.__init__ submission = OK r ->
       fromtimestamp (praw.created_utc submission) = OK d ->
       date_le d cutoff -> ~ In r results).
Proof.
  intros Hfetch.
  destruct (fetch_invariant
              (fun filter_date _ ys => Forall (Spec.after_filter_date filter_date) ys)
              names collection_period reddit limit results)
    as (filter_date & _ & Hdate & Hall).
  - intros filter_date submission. apply keep_recent_after.
  - constructor.
  - exact Hfetch.
  - apply filter_date_of_OK in Hdate as (days & cutoff & Hdays & Hcut & ->).
    exists days, cutoff. split; [by apply list_elem_of_In|]. split; [exact Hcut|].
    rewrite Forall_forall in Hall. split.
    + intros r Hr. apply list_elem_of_In, Hall in Hr as [[d Hd] Hgt].
      exists d. split; [exact Hd|]. rewrite Hd in Hgt.
      apply str_gt_isoformat in Hgt. split; [exact Hgt | by apply date_lt_not_le].
    + intros submission r d Hinit Hd Hle Hr.
      apply list_elem_of_In, Hall in Hr as [_ Hgt].
      apply init_fields in Hinit as (_ & _ & _ & _ & _ & d' & Hd' & Hcreated).
      rewrite Hd in Hd'. injection Hd' as <-. rewrite Hcreated in Hgt.
      apply str_gt_isoformat, date_lt_not_le in Hgt. by apply Hgt.
Qed.

(** C9. Empty terms are stepped over without a call to the transport: the
    run is that on the list without its empty terms, every call made asks for
    a non-empty term of the list and none asks for the empty term, and on the
    empty term followed by cat the run is that of the one search for cat. *)
Theorem empty_terms_issue_no_query (self : Reddit.t T) (search_terms : list string)
    (subreddit_name : Reddit.str_or_list) (search_sort : option string) :
  Reddit.search_for_multiple_terms self search_terms subreddit_name search_sort =
  Reddit.search_for_multiple_terms self
    (List.filter (fun t => negb (String.eqb t "")) search_terms) subreddit_name
    search_sort /\
  Spec.issues_only
    (fun r => (exists t, In t search_terms /\ t <> "" /\ Spec.asks_for t r) /\
              ~ Spec.asks_for "" r)
    self
    (Reddit.search_for_multiple_terms self search_terms subreddit_name search_sort).1 /\
  Reddit.search_for_multiple_terms self [""; "cat"] subreddit_name search_sort =
  Reddit.search self "cat" subreddit_name Reddit.TIME_FILTER_DEFAULT None search_sort.
Proof.
  split; [| split].
  - unfold Reddit.search_for_multiple_terms.
    by rewrite (for_each_filter (fun t => negb (String.eqb t "")))
      by (intros; by apply search_term_empty).
  - eapply issues_only_weaken; [| apply search_for_multiple_terms_issues].
    intros r (t & Ht & Hne & Hr). split.
    + exists t. by rewrite <- list_elem_of_In.
    + by apply (asks_for_nonempty t).
  - by apply search_after_empty_term.
Qed.

(** C6, as amended. The submission count is at least 1 and, when no record
    has a negative comment count, the comment count is 0 or more.  The
    upvote and downvote sums are the signed sums of the records' scores and
    downvote estimates: they are 0 or more when every record's score,
    respectively downvote estimate, is. *)
Theorem aggregate_metric_signs (gameId : Z) (date : string)
    (submissions : list RedditSubmission.t) (r : RedditAggregationData.t) :
  RedditAggregationData.__init__ gameId date submissions = OK r ->
  Forall (fun s => 0 <= RedditSubmission.comments s) submissions ->
  1 <= RedditAggregationData.submissions r /\
  0 <= RedditAggregationData.comments r /\
  RedditAggregationData.upvotes r = Spec.total RedditSubmission.upvotes submissions /\
  RedditAggregationData.downvotes r = Spec.total RedditSubmission.downvotes submissions /\
  (Forall (fun s => 0 <= RedditSubmission.upvotes s) submissions ->
   0 <= RedditAggregationData.upvotes r) /\
  (Forall (fun s => 0 <= RedditSubmission.downvotes s) submissions ->
   0 <= RedditAggregationData.downvotes r).
Proof.
  intros Hr Hcomments. destruct submissions as [|s l]; [discriminate|].
  rewrite init_cons in Hr. injection Hr as <-. cbn [RedditAggregationData.submissions
    RedditAggregationData.comments RedditAggregationData.upvotes
    RedditAggregationData.downvotes].
  split; [cbn [length]; lia|].
  split; [by apply (total_nonneg RedditSubmission.comments (s :: l))|].
  split; [reflexivity|]. split; [reflexivity|].
  split; [apply (total_nonneg RedditSubmission.upvotes (s :: l))
         | apply (total_nonneg RedditSubmission.downvotes (s :: l))].
Qed.

(** C7. For a bucket with at least one record the aggregate is built, its
    submission count is the number of records, and its comment count, upvote
    sum and downvote sum are the sums of the records' comment counts, scores
    and downvote estimates. *)
Theorem aggregate_sums_the_bucket (gameId : Z) (date : string)
    (submissions : list RedditSubmission.t) :
  submissions <> [] ->
  exists r,
    RedditAggregationData.__init__ gameId date submissions = OK r /\
    RedditAggregationData.submissions r = Z.of_nat (length submissions) /\
    RedditAggregationData.comments r = Spec.total RedditSubmission.comments submissions /\
    RedditAggregationData.upvotes r = Spec.total RedditSubmission.upvotes submissions /\
    RedditAggregationData.downvotes r =
      Spec.total RedditSubmission.downvotes submissions.
Proof.
  intros Hne. destruct submissions as [|s l]; [done|].
  eexists. split; [apply init_cons|]. by repeat split.
Qed.

(** C10. On an empty list the zipped sums give an empty dictionary and the
    constructor fails with a [KeyError] at the first lookup; it succeeds
    exactly on the lists with a record in them.  The buckets that
    [FetchRedditDataForGames] builds all have one, so their aggregation does
    not fail; a game with nothing found adds no record, and every aggregate
    record in the result counts at least one submission. *)
Theorem empty_bucket_is_not_aggregated :
  dict
    (zip ["submissions"; "comments"; "upvotes"; "downvotes"]
       (map sum
          (zip_star (map RedditAggregationData.row []))))
  = ∅ /\
  (forall gameId date, RedditAggregationData.__init__ gameId date [] = Raise KeyError) /\
  (forall gameId date submissions,
     (exists r, RedditAggregationData.__init__ gameId date submissions = OK r) <->
     submissions <> []) /\
  (forall gameId found agg,
     exists agg', hatinh.aggregate_game gameId (hatinh.by_date found) agg = OK agg') /\
  (forall gameId agg, hatinh.aggregate_game gameId (hatinh.by_date []) agg = OK agg) /\
  (forall subreddits games (reddit : Reddit.t T) od,
     hatinh.FetchRedditDataForGames subreddits games reddit = OK od ->
     forall d rs r, In (d, rs) od -> In r rs ->
                    1 <= RedditAggregationData.submissions r).
Proof.
  split; [reflexivity|]. split; [intros; apply init_nil|]. split; [| split; [| split]].
  - intros gameId date submissions. split.
    + intros [r Hr] ->. by rewrite init_nil in Hr.
    + intros Hne. destruct submissions as [|s l]; [done|]. eexists. apply init_cons.
  - intros gameId found agg. apply aggregate_game_total, by_date_nonempty.
  - reflexivity.
  - intros subreddits games reddit od Hod d rs r Hd Hr.
    unfold hatinh.FetchRedditDataForGames, bind in Hod.
    destruct (hatinh.collect_games _ _ _ _) as [agg|] eqn:Hagg; [|discriminate].
    injection Hod as <-.
    apply collect_games_counted in Hagg; [| constructor].
    apply (sorted_by_key_Forall (fun kv => Spec.counted kv.2)) in Hagg.
    apply (od_of_items_Forall Spec.counted) in Hagg.
    rewrite Forall_forall in Hagg. apply list_elem_of_In, Hagg in Hd.
    unfold Spec.counted in Hd. rewrite Forall_forall in Hd.
    by apply Hd, list_elem_of_In.
Qed.

End Claims.

Section GameClaims.
Context {parser : urllib.Parser}.

(** C5. A URL whose host and path are both empty makes [Game.__init__] fail
    with an [IndexError]: the last character of the empty string is read. *)
Theorem game_init_fails_on_empty_host_and_path (gameId : Z) (name : string)
    (url : option string) (parsed : urllib.ParseResult) :
  urllib.urlparse url = OK parsed ->
  urllib.format_field (urllib.netloc parsed) +:+ urllib.format_field (urllib.path parsed)
    = "" ->
  Game.__init__ gameId name url = Raise IndexError.
Proof.
  intros Hparse Hempty. unfold Game.__init__, bind. by rewrite Hparse, Hempty.
Qed.

(** X18. When host and path are not both empty the construction succeeds, and
    the simple URL is host and path without one final slash. *)
Lemma game_init_succeeds_otherwise (gameId : Z) (name : string)
    (url : option string) (parsed : urllib.ParseResult) :
  let hostpath :=
    urllib.format_field (urllib.netloc parsed)
    +:+ urllib.format_field (urllib.path parsed) in
  urllib.urlparse url = OK parsed ->
  hostpath <> "" ->
  exists g,
    Game.__init__ gameId name url = OK g /\ Game.name g = name /\
    (hostpath = Game.simple_url g +:+ "/" \/
     hostpath = Game.simple_url g /\ last_char hostpath <> OK "/"%char).
Proof.
  intros hostpath Hparse Hne. unfold Game.__init__, bind. rewrite Hparse.
  fold hostpath. destruct (last_char hostpath) as [c|e] eqn:Hlast.
  - destruct (Ascii.eqb_spec c "/") as [->|Hc]; eexists;
      (split; [reflexivity|]); (split; [reflexivity|]); simpl.
    + left. by apply last_char_drop_last.
    + right. split; [reflexivity|]. congruence.
  - exfalso. apply Hne. destruct hostpath as [|c s]; [reflexivity|].
    destruct (last_char_nonempty c s) as [c' Hc']. congruence.
Qed.

End GameClaims.

(** * Runs on concrete inputs *)

Import Fixture.

(** C1 on a listing with a repeat and with a submission that only mentions
    dogs: the record of the cat submission is yielded, and it matches. *)
Lemma search_yields_only_matches_witness :
  In cat_record
    (yielded (Reddit.search (transport := cats) (clock := utc_clock) fresh "Cat"
                (Reddit.Str "a") "year" None None).2) /\
  (Spec.is_substring (lower "Cat") (lower (RedditSubmission.title cat_record)) \/
   Spec.is_substring (lower "Cat") (lower (RedditSubmission.text cat_record))).
Proof.
  assert (Hin : In cat_record
                  (yielded (Reddit.search (transport := cats) (clock := utc_clock) fresh
                              "Cat" (Reddit.Str "a") "year" None None).2))
    by (vm_compute; left; reflexivity).
  split; [exact Hin|].
  exact (search_yields_only_matches (transport := cats) (clock := utc_clock) fresh "Cat"
           (Reddit.Str "a") "year" None None cat_record Hin).
Defined.

(** C2 on listings with repeats: the fetch returns two records, with
    distinct ids. *)
Lemma ids_unique_within_a_call_witness :
  hatinh.FetchRedditSubmissionsInSubreddits (transport := cats) (clock := utc_clock)
    ["r/gaming"; "gaming"] "W" fresh None = OK [cat_record; old_record; pet_record] /\
  NoDup (Spec.ids [cat_record; old_record; pet_record]).
Proof.
  assert (Hrun : hatinh.FetchRedditSubmissionsInSubreddits (transport := cats)
                   (clock := utc_clock) ["r/gaming"; "gaming"] "W" fresh None
                 = OK [cat_record; old_record; pet_record])
    by (vm_compute; reflexivity).
  split; [exact Hrun|].
  destruct (ids_unique_within_a_call (transport := cats) (clock := utc_clock) fresh "Cat"
              (Reddit.Str "a") "year" None None ["cat"] ["r/gaming"; "gaming"] "W")
    as (_ & _ & Hfetch).
  exact (Hfetch _ (or_introl Hrun)).
Defined.

(** C3. With channels a and b, where the first sort lists 250 distinct
    submissions on a and nothing on b, the four other sorts are still issued
    for b: the threshold is compared with the ids seen in the whole call, not
    with the results of b. *)
Theorem later_channel_is_searched_with_every_sort :
  busy_reply (praw.Search "b" (Spec.quoted "cat") "relevance" "year" None)
    = mkListing [] None /\
  Reddit.issued
    (Reddit.search (transport := busy) (clock := utc_clock) fresh "cat"
       (Reddit.Lst ["a"; "b"]) "year" None None).1
  = [praw.Search "a" (Spec.quoted "cat") "relevance" "year" None;
     praw.Search "a" (Spec.quoted "cat") "hot" "year" None;
     praw.Search "a" (Spec.quoted "cat") "top" "year" None;
     praw.Search "a" (Spec.quoted "cat") "new" "year" None;
     praw.Search "a" (Spec.quoted "cat") "comments" "year" None;
     praw.Search "b" (Spec.quoted "cat") "relevance" "year" None;
     praw.Search "b" (Spec.quoted "cat") "hot" "year" None;
     praw.Search "b" (Spec.quoted "cat") "top" "year" None;
     praw.Search "b" (Spec.quoted "cat") "new" "year" None;
     praw.Search "b" (Spec.quoted "cat") "comments" "year" None].
Proof. split; [reflexivity | vm_compute; reflexivity]. Qed.

(** C4 as stated fails: for score -1 and ratio 0.75 the quotient is
    -1.33..., [int] gives -1 and the downvotes are 0, where the floor gives
    -2 and an estimate of -1. *)
Lemma downvotes_are_not_the_floor_below_zero :
  ~ (forall (clock : Clock) (submission : praw.Submission) (r : RedditSubmission.t),
       RedditSubmission.__init__ submission = OK r ->
       Spec.downvoteEstimate (praw.score submission) (praw.upvote_ratio submission)
       = OK (RedditSubmission.downvotes r)).
Proof.
  intros Hclaim. specialize (Hclaim utc_clock odd_post odd_record eq_refl).
  vm_compute in Hclaim. discriminate.
Qed.

(** The amended C4 on the submission with score 4 and ratio 0.8. *)
Lemma downvotes_truncate_toward_zero_witness :
  RedditSubmission.__init__ (clock := utc_clock) pet_post = OK pet_record /\
  Spec.downvoteEstimate 4 ratio_0_8 = OK 1.
Proof.
  assert (Hinit : RedditSubmission.__init__ (clock := utc_clock) pet_post = OK pet_record)
    by reflexivity.
  split; [exact Hinit|].
  destruct (downvotes_truncate_toward_zero (clock := utc_clock) pet_post pet_record Hinit)
    as [[Hzero _]|(_ & q & n & _ & _ & _ & Hfloor)].
  - vm_compute in Hzero. discriminate.
  - apply Hfloor; [vm_compute; discriminate | reflexivity].
Defined.

(** C5 on the empty URL, under the reference parser. *)
Lemma game_init_fails_on_empty_host_and_path_witness :
  urllib.urlparse (Parser := basic_parser) (Some "")
    = OK (urllib.mkParseResult (urllib.Text "") (urllib.Text "")) /\
  Game.__init__ (parser := basic_parser) 1 "Portal" (Some "") = Raise IndexError.
Proof.
  split; [reflexivity|].
  apply (game_init_fails_on_empty_host_and_path (parser := basic_parser) 1 "Portal"
           (Some "") (urllib.mkParseResult (urllib.Text "") (urllib.Text "")));
    reflexivity.
Defined.

(** With no URL at all the reference parser answers in bytes and the simple
    URL is the print-out of two empty bytes literals. *)
Example game_init_without_url :
  Game.__init__ (parser := basic_parser) 1 "Portal" None
  = OK (Game.mk 1 "Portal" "b''b''" None).
Proof. reflexivity. Qed.

Example game_init_strips_scheme_and_slash :
  Game.__init__ (parser := basic_parser) 1 "Portal" (Some "https://example.com/path/")
  = OK (Game.mk 1 "Portal" "example.com/path" (Some "https://example.com/path/")).
Proof. reflexivity. Qed.

(** C6 as stated fails: one submission with score -5 and ratio 0.5 gives
    an upvote sum of -5 (and a downvote sum of -5). *)
Lemma aggregate_sums_can_be_negative :
  RedditSubmission.__init__ (clock := utc_clock) sunk_post = OK sunk_record /\
  ~ (forall (clock : Clock) (gameId : Z) (date : string)
            (submissions : list RedditSubmission.t) (r : RedditAggregationData.t),
       RedditAggregationData.__init__ gameId date submissions = OK r ->
       0 <= RedditAggregationData.submissions r /\
       0 <= RedditAggregationData.comments r /\
       0 <= RedditAggregationData.upvotes r /\
       0 <= RedditAggregationData.downvotes r).
Proof.
  split; [reflexivity|]. intros Hclaim.
  destruct (Hclaim utc_clock 1 "2020-03-01" [sunk_record] _ eq_refl)
    as (_ & _ & Hup & _).
  vm_compute in Hup. by apply Hup.
Qed.

(** The amended C6 on the two submissions of the specification's example. *)
Lemma aggregate_metric_signs_witness :
  RedditAggregationData.__init__ (clock := utc_clock) 1 "2020-03-01" [cat_record; pet_record]
    = OK (RedditAggregationData.mk 1 "2020-03-01" 3 2 14 11 "2020-03-01") /\
  Forall (fun s => 0 <= RedditSubmission.comments s) [cat_record; pet_record] /\
  1 <= 2 /\ 0 <= 3.
Proof.
  assert (Hinit : RedditAggregationData.__init__ (clock := utc_clock) 1 "2020-03-01"
                    [cat_record; pet_record]
                  = OK (RedditAggregationData.mk 1 "2020-03-01" 3 2 14 11 "2020-03-01"))
    by reflexivity.
  assert (Hcomments : Forall (fun s => 0 <= RedditSubmission.comments s)
                        [cat_record; pet_record])
    by (repeat constructor; simpl; lia).
  split; [exact Hinit|]. split; [exact Hcomments|].
  destruct (aggregate_metric_signs (clock := utc_clock) 1 "2020-03-01"
              [cat_record; pet_record] _ Hinit Hcomments) as (Hs & Hc & _).
  split; [exact Hs | exact Hc].
Defined.

(** C7 on the specification's example: comments 2 and 1, scores 10 and 4,
    ratios 0.5 and 0.8 give 2 submissions, 3 comments, 14 upvotes and 11
    downvotes. *)
Lemma aggregate_sums_the_bucket_witness :
  RedditSubmission.__init__ (clock := utc_clock) cat_post = OK cat_record /\
  RedditSubmission.__init__ (clock := utc_clock) pet_post = OK pet_record /\
  exists r,
    RedditAggregationData.__init__ (clock := utc_clock) 1 "2020-03-01"
      [cat_record; pet_record] = OK r /\
    RedditAggregationData.submissions r = 2 /\
    RedditAggregationData.comments r = 3 /\
    RedditAggregationData.upvotes r = 14 /\
    RedditAggregationData.downvotes r = 11.
Proof.
  split; [reflexivity|]. split; [reflexivity|].
  destruct (aggregate_sums_the_bucket (clock := utc_clock) 1 "2020-03-01"
              [cat_record; pet_record]) as (r & Hr & Hs & Hc & Hu & Hd);
    [discriminate|].
  exists r. split; [exact Hr|]. rewrite Hs, Hc, Hu, Hd. by repeat split.
Defined.

(** C8 on a listing with a submission from today and one from the day
    before, with period D: the cut-off is the day before, and only the
    records of today are returned. *)
Lemma fetch_returns_only_after_cutoff_witness :
  hatinh.FetchRedditSubmissionsInSubreddits (transport := cats) (clock := utc_clock)
    ["r/gaming"] "D" fresh None = OK [cat_record; pet_record] /\
  exists cutoff,
    sub_days day_2020_03_01 1 = OK cutoff /\
    isoformat cutoff = "2020-02-29" /\
    forall r, In r [cat_record; pet_record] ->
              exists d, RedditSubmission.created r = isoformat d /\ date_lt cutoff d.
Proof.
  assert (Hrun : hatinh.FetchRedditSubmissionsInSubreddits (transport := cats)
                   (clock := utc_clock) ["r/gaming"] "D" fresh None
                 = OK [cat_record; pet_record])
    by (vm_compute; reflexivity).
  split; [exact Hrun|].
  destruct (fetch_returns_only_after_cutoff (transport := cats) (clock := utc_clock)
              ["r/gaming"] "D" fresh None _ (or_introl Hrun))
    as (days & cutoff & Hdays & Hcut & Hall & _).
  assert (days = 1) as ->.
  { simpl in Hdays. destruct Hdays as [H|[H|[H|[H|[]]]]]; congruence. }
  exists cutoff. split; [exact Hcut|]. split.
  - change (@today utc_clock) with day_2020_03_01 in Hcut.
    vm_compute in Hcut. by injection Hcut as <-.
  - intros r Hr. destruct (Hall r Hr) as (d & Hd & Hlt & _).
    exists d. split; [exact Hd | exact Hlt].
Defined.

(** C9 on the transport above: the empty term and cat cause one call, the
    first sort of the search for cat. *)
Example one_search_for_two_terms :
  Reddit.issued
    (Reddit.search_for_multiple_terms (transport := cats) (clock := utc_clock) fresh
       [""; "cat"] (Reddit.Str "a+b") None).1
  = [praw.Search "a+b" (Spec.quoted "cat") "relevance" "year" None].
Proof. vm_compute. reflexivity. Qed.

(** C10 on the same transport: one game, one day, one aggregate record. *)
Example fetch_data_for_one_game :
  hatinh.FetchRedditDataForGames (transport := cats) (clock := utc_clock)
    ["r/gaming "; "pets"] [Game.mk 7 "cat" "example.com/cat" None] fresh
  = OK [("2020-03-01",
         [RedditAggregationData.mk 7 "2020-03-01" 3 2 14 11 "2020-03-01"])].
Proof. vm_compute. reflexivity. Qed.

(** * Further properties of the code *)

(** ** The query's case does not matter *)

Lemma lower_char_idempotent (c : ascii) : lower_char (lower_char c) = lower_char c.
Proof. destruct c as [[] [] [] [] [] [] [] []]; reflexivity. Qed.

Lemma lower_idempotent (s : string) : lower (lower s) = lower s.
Proof.
  induction s as [|c s IH]; [reflexivity|].
  cbn [lower]. by rewrite lower_char_idempotent, IH.
Qed.

Lemma and_then_ext {S Y : Type} (g1 g1' g2 g2' : Gen S Y) (s : S) :
  g1 s = g1' s -> (forall s', g2 s' = g2' s') -> and_then g1 g2 s = and_then g1' g2' s.
Proof.
  intros H1 H2. unfold and_then. rewrite H1. destruct (g1' s) as [s1 o1].
  destruct (raised o1); [reflexivity|]. by rewrite H2.
Qed.

Lemma for_each_ext {S Y A : Type} (l : list A) (body body' : A -> Gen S Y) (s : S) :
  (forall x s', body x s' = body' x s') -> for_each l body s = for_each l body' s.
Proof.
  intros Hbody. revert s. induction l as [|x l IH]; intros s; [reflexivity|].
  cbn [for_each]. apply and_then_ext; [apply Hbody | exact IH].
Qed.

Section CaseInsensitive.
Context {T : Type} {transport : praw.Transport T} {clock : Clock}.

Lemma visit_lower (query : string) (submission : praw.Submission)
    (st : Reddit.search_state T) :
  Reddit.visit (lower query) submission st = Reddit.visit query submission st.
Proof.
  unfold Reddit.visit, Reddit.query_in_submission. by rewrite lower_idempotent.
Qed.

Lemma scan_lower (query search_query subreddit_name time_filter : string)
    (limit : option Z) (sort : string) (st : Reddit.search_state T) :
  Reddit.scan (lower query) search_query subreddit_name time_filter limit sort st =
  Reddit.scan query search_query subreddit_name time_filter limit sort st.
Proof.
  unfold Reddit.scan. destruct (Reddit._search _ _ _ _ _ _) as [listing self'].
  apply and_then_ext; [| reflexivity].
  apply for_each_ext. intros x s'. apply visit_lower.
Qed.

Lemma search_lower (self : Reddit.t T) (query : string)
    (subreddits : Reddit.str_or_list) (time_filter : string) (limit : option Z)
    (search_sort : option string) :
  Reddit.search self (lower query) subreddits time_filter limit search_sort =
  Reddit.search self query subreddits time_filter limit search_sort.
Proof.
  unfold Reddit.search. rewrite lower_idempotent.
  match goal with
  | |- (let '(_, _) := for_each ?l ?b ?s in _) = (let '(_, _) := for_each ?l ?b' ?s in _) =>
      assert (for_each l b s = for_each l b' s) as ->; [| reflexivity]
  end.
  apply for_each_ext. intros subreddit_name st. unfold Reddit.search_subreddit.
  destruct search_sort as [sort|];
    (apply and_then_ext; [apply scan_lower|]; intros s';
     destruct (250 <=? _); [| reflexivity];
     apply for_each_ext; intros x s''; apply scan_lower).
Qed.

(** X1. Two queries that differ only in the case of their letters give the
    same run of [Reddit.search]: the same calls, the same records, the same
    end. *)
Theorem search_ignores_case (self : Reddit.t T) (query1 query2 : string)
    (subreddits : Reddit.str_or_list) (time_filter : string) (limit : option Z)
    (search_sort : option string) :
  lower query1 = lower query2 ->
  Reddit.search self query1 subreddits time_filter limit search_sort =
  Reddit.search self query2 subreddits time_filter limit search_sort.
Proof.
  intros Hlower.
  rewrite <- (search_lower self query1), <- (search_lower self query2).
  by rewrite Hlower.
Qed.

End CaseInsensitive.

Lemma search_ignores_case_witness :
  lower "CaT" = lower "cat" /\
  Reddit.search (transport := cats) (clock := utc_clock) fresh "CaT" (Reddit.Str "a")
    "year" None None =
  Reddit.search (transport := cats) (clock := utc_clock) fresh "cat" (Reddit.Str "a")
    "year" None None.
Proof.
  split; [reflexivity|].
  apply (search_ignores_case (transport := cats) (clock := utc_clock)). reflexivity.
Defined.

(** ** The calls that a search makes, in full *)

Section Calls.
Context {T : Type} {transport : praw.Transport T} {clock : Clock}.

Lemma for_each_visit_self (query : string) (l : list praw.Submission)
    (st : Reddit.search_state T) :
  Reddit.self (for_each l (Reddit.visit query) st).1 = Reddit.self st.
Proof. apply for_each_visit_state. Qed.

(** A scan makes its one call, whatever happens next. *)
Lemma scan_issued (query search_query subreddit_name time_filter : string)
    (limit : option Z) (sort : string) (st : Reddit.search_state T) :
  Reddit.issued
    (Reddit.self
       (Reddit.scan query search_query subreddit_name time_filter limit sort st).1)
  = Reddit.issued (Reddit.self st)
    ++ [praw.Search subreddit_name search_query sort time_filter limit].
Proof.
  unfold Reddit.scan, Reddit._search.
  destruct (praw.subreddit_search _ _ _ _ _ _) as [listing remote].
  unfold and_then.
  match goal with
  | |- context [for_each (items listing) (Reddit.visit query) ?s] =>
      pose proof (for_each_visit_self query (items listing) s) as Hself;
      destruct (for_each (items listing) (Reddit.visit query) s) as [st1 o1]
  end.
  cbn [fst Reddit.self] in Hself.
  destruct (raised o1); [cbn [fst]; by rewrite Hself|].
  unfold end_of. destruct (failure listing); cbn [throw skip fst]; by rewrite Hself.
Qed.

(** A loop whose body makes the calls [req x] makes them for the items it
    reaches, in order, and reaches them all unless it raises. *)
Lemma for_each_issued {A : Type} (l : list A)
    (body : A -> Gen (Reddit.search_state T) RedditSubmission.t)
    (req : A -> list praw.Request) (st : Reddit.search_state T) :
  (forall x st',
     Reddit.issued (Reddit.self (body x st').1)
     = Reddit.issued (Reddit.self st') ++ req x) ->
  exists k,
    Reddit.issued (Reddit.self (for_each l body st).1)
    = Reddit.issued (Reddit.self st) ++ concat (map req (take k l)) /\
    (raised (for_each l body st).2 = None -> k = length l).
Proof.
  intros Hbody. revert st. induction l as [|x l IH]; intros st.
  - exists 0%nat. cbn. by rewrite app_nil_r.
  - cbn [for_each]. unfold and_then. specialize (Hbody x st).
    destruct (body x st) as [s1 o1]. cbn [fst] in Hbody.
    destruct (raised o1) as [e|] eqn:Ho1.
    + exists 1%nat. cbn [fst snd take map concat]. rewrite app_nil_r.
      split; [exact Hbody | congruence].
    + destruct (IH s1) as (k & Hk & Hall).
      destruct (for_each l body s1) as [s2 o2]. cbn [fst snd] in *.
      exists (S k). cbn [take map concat length]. rewrite Hk, Hbody, <- app_assoc.
      split; [reflexivity|]. intros Hnone. by rewrite Hall.
Qed.

Lemma concat_singletons {A B : Type} (f : A -> B) (l : list A) :
  concat (map (fun x => [f x]) l) = map f l.
Proof. induction l as [|x l IH]; [reflexivity|]. cbn. by rewrite IH. Qed.

Lemma and_then_run {S Y : Type} (g1 g2 : Gen S Y) (s : S) :
  raised (and_then g1 g2 s).2 = None ->
  raised (g1 s).2 = None /\
  (and_then g1 g2 s).1 = (g2 (g1 s).1).1 /\
  raised (g2 (g1 s).1).2 = None.
Proof.
  unfold and_then. destruct (g1 s) as [s1 o1]. cbn [fst snd].
  destruct (raised o1) eqn:Ho1; cbn [fst snd]; [congruence|].
  destruct (g2 s1) as [s2 o2]. cbn [fst snd raised]. auto.
Qed.

(** With a sort given, each channel gets its one call. *)
Lemma search_subreddit_one_sort (query search_query time_filter : string)
    (limit : option Z) (sort subreddit_name : string) (st : Reddit.search_state T) :
  Reddit.issued
    (Reddit.self
       (Reddit.search_subreddit query search_query time_filter limit [sort]
          subreddit_name st).1)
  = Reddit.issued (Reddit.self st)
    ++ [praw.Search subreddit_name search_query sort time_filter limit].
Proof.
  unfold Reddit.search_subreddit, and_then.
  pose proof (scan_issued query search_query subreddit_name time_filter limit sort st)
    as Hscan.
  destruct (Reddit.scan _ _ _ _ _ _ _) as [s1 o1]. cbn [fst] in Hscan.
  destruct (raised o1); [exact Hscan|].
  destruct (250 <=? _); exact Hscan.
Qed.

(** X2. With a sort given, [Reddit.search] makes one call per channel, in the
    order of the channels, each for the quoted lower-cased query with that
    sort and the time filter and limit it was given; it reaches every channel
    unless it ends in an exception. *)
Theorem search_with_a_sort_calls_each_channel_once (self : Reddit.t T)
    (query : string) (subreddits : Reddit.str_or_list) (time_filter : string)
    (limit : option Z) (sort : string) :
  let run := Reddit.search self query subreddits time_filter limit (Some sort) in
  exists k,
    Reddit.issued run.1
    = Reddit.issued self
      ++ map (fun name => praw.Search name (Spec.quoted query) sort time_filter limit)
           (take k (Spec.names_of subreddits)) /\
    (raised run.2 = None -> k = length (Spec.names_of subreddits)).
Proof.
  unfold Reddit.search. fold (Spec.names_of subreddits). fold (Spec.quoted query).
  match goal with
  | |- context [for_each ?l ?body ?s] =>
      destruct (for_each_issued l body
                  (fun name =>
                     [praw.Search name (Spec.quoted query) sort time_filter limit]) s)
        as (k & Hk & Hall);
      [intros name st'; apply search_subreddit_one_sort|];
      destruct (for_each l body s) as [st out]
  end.
  cbn [fst snd Reddit.self] in *. exists k. by rewrite <- concat_singletons.
Qed.

(** *** The cascade on a single channel *)

Lemma visit_seen (query : string) (submission : praw.Submission)
    (st : Reddit.search_state T) :
  Reddit.seen_ids (Reddit.visit query submission st).1
  = {[praw.id submission]} ∪ Reddit.seen_ids st.
Proof.
  unfold Reddit.visit. destruct (decide _) as [Hin|Hnew].
  - cbn [skip fst]. symmetry. apply subseteq_union_1_L. by apply singleton_subseteq_l.
  - destruct (Reddit.query_in_submission query submission) as [[] info];
      [destruct (RedditSubmission.__init__ submission)|]; reflexivity.
Qed.

Lemma for_each_visit_seen (query : string) (l : list praw.Submission)
    (st : Reddit.search_state T) :
  raised (for_each l (Reddit.visit query) st).2 = None ->
  Reddit.seen_ids (for_each l (Reddit.visit query) st).1
  = list_to_set (map praw.id l) ∪ Reddit.seen_ids st.
Proof.
  revert st. induction l as [|x l IH]; intros st Hnone.
  - cbn [for_each skip fst map list_to_set]. by rewrite union_empty_l_L.
  - cbn [for_each] in *. apply and_then_run in Hnone as (_ & -> & Hrest).
    rewrite (IH _ Hrest), visit_seen. cbn [map list_to_set].
    rewrite (assoc_L (∪)). f_equal. apply union_comm_L.
Qed.

Lemma scan_seen (query search_query subreddit_name time_filter : string)
    (limit : option Z) (sort : string) (st : Reddit.search_state T) :
  raised (Reddit.scan query search_query subreddit_name time_filter limit sort st).2
    = None ->
  Reddit.seen_ids
    (Reddit.scan query search_query subreddit_name time_filter limit sort st).1
  = list_to_set
      (map praw.id
         (items (praw.subreddit_search subreddit_name search_query sort time_filter
                   limit (Reddit.reddit (Reddit.self st))).1))
    ∪ Reddit.seen_ids st.
Proof.
  unfold Reddit.scan, Reddit._search.
  destruct (praw.subreddit_search _ _ _ _ _ _) as [listing remote]. cbn [fst].
  intros Hnone. apply and_then_run in Hnone as (Hloop & -> & _).
  unfold end_of. destruct (failure listing); cbn [throw skip fst];
    by rewrite (for_each_visit_seen _ _ _ Hloop).
Qed.

(** X4. On a single channel with no sort given, a run of [Reddit.search]
    that does not end in an exception makes the call for the first sort and,
    exactly when that listing holds 250 or more distinct ids, the calls for
    the four other sorts, in the order of the cascade. *)
Theorem single_channel_cascade (self : Reddit.t T) (query subreddit_name : string)
    (time_filter : string) (limit : option Z) :
  let run :=
    Reddit.search self query (Reddit.Str subreddit_name) time_filter limit None in
  let first :=
    (praw.subreddit_search subreddit_name (Spec.quoted query) "relevance" time_filter
       limit (Reddit.reddit self)).1 in
  raised run.2 = None ->
  Reddit.issued run.1
  = Reddit.issued self
    ++ map (fun sort =>
              praw.Search subreddit_name (Spec.quoted query) sort time_filter limit)
         (if 250 <=? Z.of_nat (Spec.distinct_ids (items first))
          then Spec.cascade else ["relevance"]).
Proof.
  intros run first. subst run. unfold Reddit.search. fold (Spec.quoted query).
  cbn [for_each].
  match goal with
  | |- context [and_then ?g1 ?g2 ?s] =>
      pose proof (and_then_run g1 g2 s) as Hrun;
      destruct (and_then g1 g2 s) as [st out] eqn:Hst
  end.
  cbn [fst snd] in *. intros Hnone.
  destruct (Hrun Hnone) as (Hbody & -> & _). clear Hrun Hst. cbn [skip fst].
  unfold Reddit.search_subreddit in *.
  apply and_then_run in Hbody as (Hscan & -> & Hrest).
  pose proof (scan_issued query (Spec.quoted query) subreddit_name time_filter limit
                "relevance" (Reddit.mk_state ∅ self)) as Hcall.
  pose proof (scan_seen _ _ _ _ _ _ _ Hscan) as Hseen.
  destruct (Reddit.scan _ _ _ _ _ _ _) as [st1 o1]. cbn [fst snd Reddit.self] in *.
  cbn [Reddit.seen_ids] in Hseen. rewrite union_empty_r_L in Hseen.
  fold first in Hseen.
  assert (size (Reddit.seen_ids st1) = Spec.distinct_ids (items first)) as Hsize
    by (by rewrite Hseen).
  rewrite Hsize in *.
  destruct (250 <=? Z.of_nat (Spec.distinct_ids (items first))).
  - destruct (for_each_issued ["hot"; "top"; "new"; "comments"]
                (Reddit.scan query (Spec.quoted query) subreddit_name time_filter limit)
                (fun sort =>
                   [praw.Search subreddit_name (Spec.quoted query) sort time_filter
                      limit]) st1) as (k & Hk & Hall);
      [intros sort st'; apply scan_issued|].
    rewrite (Hall Hrest) in Hk. rewrite Hk, Hcall, <- app_assoc. reflexivity.
  - cbn [skip fst]. exact Hcall.
Qed.

End Calls.

(** ** What a search for several terms lets through *)

Section Terms.
Context {T : Type} {transport : praw.Transport T} {clock : Clock}.

Lemma keep_new_Forall (P : RedditSubmission.t -> Prop) (l : list RedditSubmission.t)
    (s : gset string) :
  Forall P l -> Forall P (yielded (for_each l Reddit.keep_new s).2).
Proof.
  intros Hl. revert s. induction Hl as [|r l Hr Hl IH]; intros s; [constructor|].
  cbn [for_each]. unfold and_then, Reddit.keep_new at 1.
  destruct (decide _); cbn [skip yield raised yielded fst snd].
  - specialize (IH s). destruct (for_each l Reddit.keep_new s) as [s' kept].
    exact IH.
  - specialize (IH ({[RedditSubmission.id r]} ∪ s)).
    destruct (for_each l Reddit.keep_new _) as [s' kept]. by constructor.
Qed.

Lemma search_matches (self : Reddit.t T) (query : string)
    (subreddits : Reddit.str_or_list) (time_filter : string) (limit : option Z)
    (search_sort : option string) :
  Forall (Spec.matches query)
    (yielded (Reddit.search self query subreddits time_filter limit search_sort).2).
Proof.
  destruct (search_invariant (fun _ ys => Forall (Spec.matches query) ys) self query
              subreddits time_filter limit search_sort) as [_ Hall];
    [intros submission; apply visit_matches | constructor | exact Hall].
Qed.

(** X5. Every record yielded by [Reddit.search_for_multiple_terms] contains,
    in its lower-cased title or body, the lower-cased form of one of the
    non-empty terms. *)
Theorem every_term_result_matches_a_term (self : Reddit.t T)
    (search_terms : list string) (subreddit_name : Reddit.str_or_list)
    (search_sort : option string) (r : RedditSubmission.t) :
  In r (yielded (Reddit.search_for_multiple_terms self search_terms subreddit_name
                   search_sort).2) ->
  exists t, In t search_terms /\ t <> "" /\ Spec.matches t r.
Proof.
  intros Hr. unfold Reddit.search_for_multiple_terms in Hr.
  set (P := fun r => exists t, In t search_terms /\ t <> "" /\ Spec.matches t r).
  pose proof (preserves_run (fun _ ys => Forall P ys)
                (for_each search_terms (Reddit.search_term subreddit_name search_sort))
                (∅, self)) as Hrun.
  destruct (for_each _ _ _) as [[s self'] out]. cbn [fst snd] in *.
  assert (Forall P (yielded out)) as Hall.
  { apply Hrun; [| constructor]. apply preserves_for_each. intros q Hq [s0 self0] ys HI.
    unfold Reddit.search_term.
    destruct (String.eqb_spec q "") as [->|Hne]; [cbn; by rewrite app_nil_r|].
    pose proof (search_matches self0 q subreddit_name Reddit.TIME_FILTER_DEFAULT None
                  search_sort) as Hfound.
    destruct (Reddit.search _ _ _ _ _ _) as [self1 found].
    pose proof (keep_new_Forall P (yielded found) s0) as Hkept.
    destruct (for_each (yielded found) Reddit.keep_new s0) as [s1 kept].
    cbn [fst snd yielded] in *. apply Forall_app. split; [exact HI|].
    apply Hkept. eapply Forall_impl; [exact Hfound|].
    intros r' Hr'. exists q. split; [by apply list_elem_of_In|]. by split. }
  rewrite Forall_forall in Hall. by apply Hall, list_elem_of_In.
Qed.

End Terms.

(** ** How building a record can fail *)

Section RecordErrors.
Context {clock : Clock}.

(** X6. Once the creation time converts to a date, building a record either
    succeeds or fails with [ValueError] or [OverflowError]: the ratio is
    compared with 0 before the division, for the negative zero as well, so no
    division by zero is ever raised; and with a ratio of 0 it succeeds with 0
    downvotes. *)
Theorem record_construction_outcomes (submission : praw.Submission) (d : date) :
  fromtimestamp (praw.created_utc submission) = OK d ->
  ((exists r, RedditSubmission.__init__ submission = OK r) \/
   RedditSubmission.__init__ submission = Raise ValueError \/
   RedditSubmission.__init__ submission = Raise OverflowError) /\
  (float_is_zero (praw.upvote_ratio submission) = true ->
   exists r, RedditSubmission.__init__ submission = OK r /\
             RedditSubmission.downvotes r = 0).
Proof.
  intros Hd. unfold RedditSubmission.__init__. rewrite Hd. cbn [bind].
  destruct (float_is_zero (praw.upvote_ratio submission)) eqn:Hzero.
  - split; [left|intros _]; eexists; [reflexivity | by split].
  - split; [| discriminate].
    unfold int_truediv_float, float_truediv, float_of_int. rewrite Hzero.
    destruct (binary_normalize _ _ _ _ _) as [s|s| |s m e]; cbn [bind]; auto;
      (destruct (int_of_float _) as [n|[]] eqn:Hn; cbn [bind]; eauto;
       destruct (SFdiv _ _ _ _); discriminate).
Qed.

End RecordErrors.

(** ** Aggregation composes *)

Section AggregationAlgebra.
Context {clock : Clock}.

Lemma total_app (f : RedditSubmission.t -> Z) (l1 l2 : list RedditSubmission.t) :
  Spec.total f (l1 ++ l2) = Spec.total f l1 + Spec.total f l2.
Proof. induction l1 as [|x l1 IH]; cbn [Spec.total app]; lia. Qed.

Lemma total_Permutation (f : RedditSubmission.t -> Z) (l1 l2 : list RedditSubmission.t) :
  l1 ≡ₚ l2 -> Spec.total f l1 = Spec.total f l2.
Proof. induction 1; cbn [Spec.total]; lia. Qed.

(** X7. The aggregate does not depend on the order of the submissions. *)
Theorem aggregate_ignores_order (gameId : Z) (date : string)
    (submissions submissions' : list RedditSubmission.t) :
  submissions ≡ₚ submissions' ->
  RedditAggregationData.__init__ gameId date submissions =
  RedditAggregationData.__init__ gameId date submissions'.
Proof.
  intros Hperm. destruct submissions as [|s l].
  - by apply Permutation_nil_l in Hperm as ->.
  - destruct submissions' as [|s' l']; [by apply Permutation_nil_r in Hperm|].
    rewrite !init_cons.
    rewrite (total_Permutation RedditSubmission.comments _ _ Hperm),
      (total_Permutation RedditSubmission.upvotes _ _ Hperm),
      (total_Permutation RedditSubmission.downvotes _ _ Hperm),
      (Permutation_length Hperm).
    reflexivity.
Qed.

(** X8. Aggregating two lists put together gives the sums of their
    aggregates, metric by metric. *)
Theorem aggregate_of_concatenation (gameId : Z) (date : string)
    (l1 l2 : list RedditSubmission.t) (r1 r2 : RedditAggregationData.t) :
  RedditAggregationData.__init__ gameId date l1 = OK r1 ->
  RedditAggregationData.__init__ gameId date l2 = OK r2 ->
  RedditAggregationData.__init__ gameId date (l1 ++ l2) =
  OK (RedditAggregationData.mk gameId date
        (RedditAggregationData.comments r1 + RedditAggregationData.comments r2)
        (RedditAggregationData.submissions r1 + RedditAggregationData.submissions r2)
        (RedditAggregationData.upvotes r1 + RedditAggregationData.upvotes r2)
        (RedditAggregationData.downvotes r1 + RedditAggregationData.downvotes r2)
        (isoformat today)).
Proof.
  intros H1 H2. destruct l1 as [|a l1]; [discriminate|].
  destruct l2 as [|b l2]; [discriminate|].
  rewrite init_cons in H1, H2. injection H1 as <-. injection H2 as <-.
  change ((a :: l1) ++ b :: l2) with (a :: (l1 ++ b :: l2)). rewrite init_cons.
  change (a :: (l1 ++ b :: l2)) with ((a :: l1) ++ b :: l2).
  rewrite !total_app, length_app. cbn [RedditAggregationData.comments
    RedditAggregationData.submissions RedditAggregationData.upvotes
    RedditAggregationData.downvotes Spec.total length].
  f_equal. f_equal; lia.
Qed.

End AggregationAlgebra.

(** ** Grouping by day *)

Section Grouping.
Context {clock : Clock}.

Lemma keys_dd_append {A : Type} (k : string) (v : A) (d : list (string * list A)) :
  Spec.keys (hatinh.dd_append k v d)
  = if decide (k ∈ Spec.keys d) then Spec.keys d else Spec.keys d ++ [k].
Proof.
  unfold Spec.keys. induction d as [|[k' vs] d IH]; [reflexivity|].
  cbn [hatinh.dd_append map fst].
  destruct (String.eqb_spec k k') as [->|Hne].
  - cbn [map fst]. rewrite decide_True; [reflexivity | left].
  - cbn [map fst]. rewrite IH. destruct (decide (k ∈ map fst d)) as [Hin|Hout].
    + rewrite decide_True; [reflexivity | by right].
    + rewrite decide_False; [reflexivity|].
      intros [Heq|Hin]%elem_of_cons; [by apply Hne | by apply Hout].
Qed.


Lemma NoDup_keys_dd_append {A : Type} (k : string) (v : A)
    (d : list (string * list A)) :
  NoDup (Spec.keys d) -> NoDup (Spec.keys (hatinh.dd_append k v d)).
Proof.
  intros Hnd. rewrite keys_dd_append. destruct (decide _) as [Hin|Hout]; [exact Hnd|].
  apply NoDup_app. split; [exact Hnd|]. split; [| apply NoDup_singleton].
  intros x Hx Hx'. apply list_elem_of_singleton in Hx' as ->. by apply Hout.
Qed.

Lemma filter_snoc (d : string) (p : list RedditSubmission.t) (s : RedditSubmission.t) :
  List.filter (Spec.on_day d) (p ++ [s])
  = List.filter (Spec.on_day d) p ++ (if Spec.on_day d s then [s] else []).
Proof. by rewrite List.filter_app. Qed.

Lemma dd_append_buckets (p : list RedditSubmission.t) (s : RedditSubmission.t)
    (acc : list (string * list RedditSubmission.t)) :
  NoDup (Spec.keys acc) ->
  Forall (fun kv => kv.2 = List.filter (Spec.on_day kv.1) p) acc ->
  (RedditSubmission.created s ∉ Spec.keys acc ->
   List.filter (Spec.on_day (RedditSubmission.created s)) p = []) ->
  Forall (fun kv => kv.2 = List.filter (Spec.on_day kv.1) (p ++ [s]))
    (hatinh.dd_append (RedditSubmission.created s) s acc).
Proof.
  induction acc as [|[k vs] acc IH]; intros Hnd Hacc Hnew.
  - cbn [hatinh.dd_append]. repeat constructor. cbn [fst snd].
    rewrite filter_snoc, Hnew by apply not_elem_of_nil.
    unfold Spec.on_day. by rewrite String.eqb_refl.
  - unfold Spec.keys in Hnd, IH, Hnew |- *. cbn [map fst] in Hnd, Hnew.
    apply NoDup_cons in Hnd as [Hk Hnd].
    apply Forall_cons in Hacc as [Hvs Hacc]. cbn [fst snd] in Hvs.
    cbn [hatinh.dd_append]. destruct (String.eqb_spec (RedditSubmission.created s) k)
      as [Heq|Hne].
    + constructor.
      * cbn [fst snd]. rewrite filter_snoc, <- Hvs. unfold Spec.on_day.
        by rewrite Heq, String.eqb_refl.
      * rewrite Forall_forall in Hacc. apply Forall_forall. intros [k' vs'] Hin.
        pose proof (Hacc _ Hin) as Hv. cbn [fst snd] in Hv |- *.
        rewrite filter_snoc, <- Hv. unfold Spec.on_day.
        destruct (String.eqb_spec (RedditSubmission.created s) k') as [Heq'|_];
          [| by rewrite app_nil_r].
        exfalso. apply Hk. rewrite <- Heq, Heq'.
        apply list_elem_of_fmap. by exists (k', vs').
    + constructor.
      * cbn [fst snd]. rewrite filter_snoc, <- Hvs. unfold Spec.on_day.
        destruct (String.eqb_spec (RedditSubmission.created s) k); [done|].
        by rewrite app_nil_r.
      * apply IH; [exact Hnd | exact Hacc|]. intros Hout. apply Hnew.
        by apply not_elem_of_cons.
Qed.

Lemma by_date_snoc (p : list RedditSubmission.t) (s : RedditSubmission.t) :
  hatinh.by_date (p ++ [s])
  = hatinh.dd_append (RedditSubmission.created s) s (hatinh.by_date p).
Proof. unfold hatinh.by_date. by rewrite fold_left_app. Qed.

Lemma filter_nil_iff (d : string) (p : list RedditSubmission.t) :
  (forall s, s ∈ p -> RedditSubmission.created s <> d) ->
  List.filter (Spec.on_day d) p = [].
Proof.
  induction p as [|x p IH]; intros Hp; [reflexivity|]. cbn [List.filter].
  unfold Spec.on_day at 1. destruct (String.eqb_spec (RedditSubmission.created x) d).
  - exfalso. by apply (Hp x); [left|].
  - apply IH. intros s Hs. apply Hp. by right.
Qed.

Lemma by_date_invariant (found : list RedditSubmission.t) :
  NoDup (Spec.keys (hatinh.by_date found)) /\
  Forall (fun kv => kv.2 = List.filter (Spec.on_day kv.1) found) (hatinh.by_date found) /\
  (forall s, s ∈ found -> RedditSubmission.created s ∈ Spec.keys (hatinh.by_date found)).
Proof.
  induction found as [|s p IH] using rev_ind.
  - split; [constructor|]. split; [constructor|]. intros s Hs. inversion Hs.
  - destruct IH as (Hnd & Hall & Hin). rewrite by_date_snoc.
    split; [by apply NoDup_keys_dd_append|]. split.
    + apply dd_append_buckets; [exact Hnd | exact Hall|].
      intros Hout. apply filter_nil_iff. intros s' Hs' Heq. apply Hout.
      rewrite <- Heq. by apply Hin.
    + intros s' Hs'. rewrite keys_dd_append.
      apply elem_of_app in Hs' as [Hs'|Hs'%list_elem_of_singleton].
      * destruct (decide _); [by apply Hin|]. apply elem_of_app. left. by apply Hin.
      * subst s'. destruct (decide _) as [Hk|Hk]; [exact Hk|].
        apply elem_of_app. right. by apply list_elem_of_singleton.
Qed.

(** X9. The grouping by day of creation has one bucket per day that occurs,
    each day once; a bucket holds exactly the submissions of its day, in the
    order in which they were found, and is never empty. *)
Theorem by_date_partitions_by_day (found : list RedditSubmission.t) :
  NoDup (Spec.keys (hatinh.by_date found)) /\
  (forall d submissions,
     In (d, submissions) (hatinh.by_date found) ->
     submissions = List.filter (Spec.on_day d) found /\ submissions <> []) /\
  (forall s, In s found ->
             In (RedditSubmission.created s) (Spec.keys (hatinh.by_date found))).
Proof.
  destruct (by_date_invariant found) as (Hnd & Hall & Hin).
  split; [exact Hnd|]. split.
  - intros d submissions Hd. apply list_elem_of_In in Hd. split.
    + rewrite Forall_forall in Hall. exact (Hall _ Hd).
    + pose proof (by_date_nonempty found) as Hne. rewrite Forall_forall in Hne.
      exact (Hne _ Hd).
  - intros s Hs. apply list_elem_of_In, Hin, list_elem_of_In, Hs.
Qed.

End Grouping.

(** ** From the buckets to the ordered result *)

Section Ordered.
Context {clock : Clock}.




(** *** Sorting by key *)









End Ordered.

(** ** The result of [FetchRedditDataForGames] *)

Section Result.
Context {T : Type} {transport : praw.Transport T} {clock : Clock}.





End Result.

(** ** Subreddit names *)

Lemma rstrip_cons (c : ascii) (s : string) :
  is_space c = false -> rstrip (String c s) = String c (rstrip s).
Proof. intros Hc. cbn [rstrip]. rewrite Hc. by destruct (rstrip s). Qed.

Lemma rstrip_idempotent (s : string) : rstrip (rstrip s) = rstrip s.
Proof.
  induction s as [|c s IH]; [reflexivity|]. cbn [rstrip].
  destruct (rstrip s) as [|c' t] eqn:Hs.
  - destruct (is_space c) eqn:Hc; [reflexivity|]. cbn [rstrip]. by rewrite Hc.
  - cbn [rstrip] in IH |- *. by rewrite IH.
Qed.

Lemma lstrip_head (s : string) :
  lstrip s = "" \/ exists c t, lstrip s = String c t /\ is_space c = false.
Proof.
  induction s as [|c s IH]; [by left|]. cbn [lstrip].
  destruct (is_space c) eqn:Hc; [exact IH|]. right. by exists c, s.
Qed.

Lemma strip_idempotent (x : string) : strip (strip x) = strip x.
Proof.
  unfold strip. destruct (lstrip_head x) as [->|(c & t & -> & Hc)]; [reflexivity|].
  rewrite rstrip_cons by exact Hc. cbn [lstrip]. rewrite Hc.
  rewrite rstrip_cons by exact Hc. by rewrite rstrip_idempotent.
Qed.

(** X12. White space around a subreddit name never matters: a name and the
    same name with its surrounding white space removed are cleaned to the
    same result. *)
Theorem clean_subreddit_name_ignores_outer_space (x : string) :
  hatinh.clean_subreddit_name (strip x) = hatinh.clean_subreddit_name x.
Proof. unfold hatinh.clean_subreddit_name. by rewrite strip_idempotent. Qed.

Lemma strip_fixed_rstrip (x : string) : strip x = x -> rstrip x = x.
Proof.
  intros Hx. rewrite <- Hx at 1. unfold strip. by rewrite rstrip_idempotent.
Qed.

(** X13. For a name without white space at its ends, the name with r/ in
    front is cleaned to the name itself; so r/gaming and gaming are cleaned
    to the same result, as is every such pair whose plain name does not
    itself start with r/.  Only one r/ is removed. *)
Theorem clean_subreddit_name_removes_one_prefix (x : string) :
  strip x = x ->
  hatinh.clean_subreddit_name ("r/" +:+ x) = x /\
  (String.prefix "r/" x = false ->
   hatinh.clean_subreddit_name ("r/" +:+ x) = hatinh.clean_subreddit_name x).
Proof.
  intros Hx.
  assert (hatinh.clean_subreddit_name ("r/" +:+ x) = x) as Hclean.
  { unfold hatinh.clean_subreddit_name, strip. rewrite !append_cons, append_nil.
    cbn [lstrip]. change (is_space "r") with false. cbn iota.
    rewrite !rstrip_cons by reflexivity. rewrite (strip_fixed_rstrip x Hx).
    cbn [String.prefix]. destruct (ascii_dec "r" "r"); [|done].
    destruct (ascii_dec "/" "/"); [|done]. by destruct x. }
  split; [exact Hclean|]. intros Hprefix. rewrite Hclean.
  unfold hatinh.clean_subreddit_name. by rewrite Hx, Hprefix.
Qed.

Lemma clean_subreddit_name_removes_one_prefix_witness :
  strip "gaming" = "gaming" /\
  hatinh.clean_subreddit_name "r/gaming" = "gaming" /\
  hatinh.clean_subreddit_name "r/gaming" = hatinh.clean_subreddit_name "gaming" /\
  hatinh.clean_subreddit_name "r/r/gaming" = "r/gaming".
Proof.
  split; [reflexivity|].
  destruct (clean_subreddit_name_removes_one_prefix "gaming" eq_refl) as [Hone Hsame].
  split; [exact Hone|]. split; [exact (Hsame eq_refl)|].
  exact (proj1 (clean_subreddit_name_removes_one_prefix "r/gaming" eq_refl)).
Defined.

(** ** Creation days as strings *)

Lemma compare_refl (s : string) : String.compare s s = Eq.
Proof.
  pose proof (String.compare_antisym s s) as H.
  destruct (String.compare s s); [reflexivity | discriminate | discriminate].
Qed.

Section Created.
Context {clock : Clock}.

(** X14. The [created] strings of two records order as the days on which
    the submissions were created, and are the same string exactly when those
    are the same day; so comparing with the cut-off string and grouping by
    [created] are a comparison and a grouping of days. *)
Theorem created_strings_stand_for_days (s1 s2 : praw.Submission)
    (r1 r2 : RedditSubmission.t) (d1 d2 : date) :
  RedditSubmission.__init__ s1 = OK r1 ->
  RedditSubmission.__init__ s2 = OK r2 ->
  fromtimestamp (praw.created_utc s1) = OK d1 ->
  fromtimestamp (praw.created_utc s2) = OK d2 ->
  (str_gt (RedditSubmission.created r1) (RedditSubmission.created r2) = true
   <-> date_lt d2 d1) /\
  (RedditSubmission.created r1 = RedditSubmission.created r2
   <-> date_compare d1 d2 = Eq).
Proof.
  intros H1 H2 Hd1 Hd2.
  apply init_fields in H1 as (_ & _ & _ & _ & _ & d1' & Hd1' & ->).
  apply init_fields in H2 as (_ & _ & _ & _ & _ & d2' & Hd2' & ->).
  rewrite Hd1 in Hd1'. injection Hd1' as <-.
  rewrite Hd2 in Hd2'. injection Hd2' as <-.
  split; [apply str_gt_isoformat|]. rewrite <- isoformat_compare. split.
  - intros ->. apply compare_refl.
  - apply String.compare_eq_iff.
Qed.

End Created.

(** ** Periods *)

Section Periods.
Context {T : Type} {transport : praw.Transport T} {clock : Clock}.

(** X15. A collection period other than D, W, M and Y makes both fetchers
    fail with the assertion's message, whatever the names, the limit, the
    transport and the current day. *)
Theorem unknown_period_is_rejected (names : list string) (collection_period : string)
    (reddit : Reddit.t T) (limit : option Z) :
  ~ In collection_period ["D"; "W"; "M"; "Y"] ->
  hatinh.FetchRedditSubmissionsInSubreddits names collection_period reddit limit
  = Raise (AssertionError "Collection period has to be one of D,W,M or Y") /\
  hatinh.FetchRedditSubmissionsByUsers names collection_period reddit limit
  = Raise (AssertionError "Collection period has to be one of D,W,M or Y").
Proof.
  intros Hout.
  assert (hatinh.filter_date_of collection_period
          = Raise (AssertionError "Collection period has to be one of D,W,M or Y"))
    as Hdate.
  { unfold hatinh.filter_date_of.
    destruct (existsb _ _) eqn:Hin; [| reflexivity].
    apply existsb_exists in Hin as (p & Hp & Heq%String.eqb_eq). by subst p. }
  unfold hatinh.FetchRedditSubmissionsInSubreddits,
    hatinh.FetchRedditSubmissionsByUsers. by rewrite Hdate.
Qed.

End Periods.

(** ** Nothing that should come out is lost *)

Lemma and_then_yielded {S Y : Type} (g1 g2 : Gen S Y) (s : S) :
  raised (and_then g1 g2 s).2 = None ->
  yielded (and_then g1 g2 s).2 = yielded (g1 s).2 ++ yielded (g2 (g1 s).1).2.
Proof.
  unfold and_then. destruct (g1 s) as [s1 o1]. cbn [fst snd].
  destruct (raised o1) eqn:Ho1; cbn [fst snd]; [congruence|].
  by destruct (g2 s1) as [s2 o2].
Qed.

Section Complete.
Context {T : Type} {transport : praw.Transport T} {clock : Clock}.

(** In a loop of [visit] that does not raise, a submission whose id is new
    when it is reached and which contains the query is yielded. *)
Lemma visit_loop_complete (query : string) (l1 l2 : list praw.Submission)
    (x : praw.Submission) (st : Reddit.search_state T) :
  raised (for_each (l1 ++ x :: l2) (Reddit.visit query) st).2 = None ->
  praw.id x ∉ Reddit.seen_ids st ->
  praw.id x ∉ map praw.id l1 ->
  (Reddit.query_in_submission query x).1 = true ->
  exists r,
    RedditSubmission.__init__ x = OK r /\
    r ∈ yielded (for_each (l1 ++ x :: l2) (Reddit.visit query) st).2.
Proof.
  revert st. induction l1 as [|y l1 IH]; intros st Hnone Hseen Hnew Hfound.
  - cbn [app for_each] in *. rewrite (and_then_yielded _ _ _ Hnone).
    apply and_then_run in Hnone as (Hx & _ & _).
    unfold Reddit.visit in *. rewrite decide_False in * by exact Hseen.
    destruct (Reddit.query_in_submission query x) as [found info].
    cbn [fst] in Hfound. subst found.
    destruct (RedditSubmission.__init__ x) as [r|e]; [| discriminate].
    exists r. split; [reflexivity|]. apply elem_of_app. left. cbn. left.
  - cbn [app for_each map] in *. apply not_elem_of_cons in Hnew as [Hne Hnew].
    rewrite (and_then_yielded _ _ _ Hnone).
    apply and_then_run in Hnone as (_ & _ & Hrest).
    destruct (IH (Reddit.visit query y st).1 Hrest) as (r & Hr & Hin);
      [| exact Hnew | exact Hfound |].
    + rewrite visit_seen. intros [Heq%elem_of_singleton|Hin]%elem_of_union;
        [by apply Hne | by apply Hseen].
    + exists r. split; [exact Hr|]. apply elem_of_app. by right.
Qed.

(** X16. On a single channel, when the run of [Reddit.search] does not end
    in an exception, every submission of the first listing that contains the
    query, at the first place where its id is listed, is among the records
    yielded. *)
Theorem search_keeps_every_match_of_the_first_listing (self : Reddit.t T)
    (query subreddit_name time_filter : string) (limit : option Z)
    (search_sort : option string) (l1 l2 : list praw.Submission)
    (x : praw.Submission) :
  let run :=
    Reddit.search self query (Reddit.Str subreddit_name) time_filter limit
      search_sort in
  let sort := match search_sort with Some s => s | None => "relevance" end in
  raised run.2 = None ->
  items (praw.subreddit_search subreddit_name (Spec.quoted query) sort time_filter
           limit (Reddit.reddit self)).1 = l1 ++ x :: l2 ->
  ~ In (praw.id x) (map praw.id l1) ->
  Spec.is_substring (lower query) (lower (praw.title x)) \/
  Spec.is_substring (lower query) (lower (praw.selftext x)) ->
  exists r, RedditSubmission.__init__ x = OK r /\ In r (yielded run.2).
Proof.
  intros run sort Hnone Hitems Hnew Hmatch. subst run.
  unfold Reddit.search in *. fold (Spec.quoted query) in *. cbn [for_each] in *.
  match type of Hnone with
  | context [and_then ?g1 ?g2 ?s] =>
      pose proof (and_then_run g1 g2 s) as Hrun;
      pose proof (and_then_yielded g1 g2 s) as Hyield;
      destruct (and_then g1 g2 s) as [st out]
  end.
  cbn [fst snd] in *. rewrite (Hyield Hnone).
  destruct (Hrun Hnone) as (Hbody & _ & _). clear Hrun Hyield.
  assert (Reddit.search_subreddit query (Spec.quoted query) time_filter limit
            match search_sort with
            | Some s => [s]
            | None => ["relevance"; "hot"; "top"; "new"; "comments"]
            end subreddit_name
          = and_then
              (Reddit.scan query (Spec.quoted query) subreddit_name time_filter limit
                 sort)
              (fun st =>
                 if 250 <=? Z.of_nat (size (Reddit.seen_ids st)) then
                   for_each match search_sort with
                            | Some _ => []
                            | None => ["hot"; "top"; "new"; "comments"]
                            end
                     (Reddit.scan query (Spec.quoted query) subreddit_name time_filter
                        limit) st
                 else skip st)) as Hshape by (by destruct search_sort).
  rewrite Hshape in *. clear Hshape.
  rewrite (and_then_yielded _ _ _ Hbody).
  apply and_then_run in Hbody as (Hscan & _ & _).
  unfold Reddit.scan, Reddit._search in *.
  destruct (praw.subreddit_search _ _ _ _ _ _) as [listing remote].
  cbn [fst] in Hitems. rewrite (and_then_yielded _ _ _ Hscan).
  apply and_then_run in Hscan as (Hloop & _ & _). rewrite Hitems in *.
  destruct (visit_loop_complete query l1 l2 x _ Hloop) as (r & Hr & Hin).
  - cbn. apply not_elem_of_empty.
  - by rewrite list_elem_of_In.
  - unfold Reddit.query_in_submission. cbn [fst]. apply orb_true_iff.
    destruct Hmatch as [Hm|Hm]; apply contains_iff in Hm; auto.
  - exists r. split; [exact Hr|]. apply list_elem_of_In.
    apply elem_of_app. left. apply elem_of_app. left. apply elem_of_app. by left.
Qed.

(** In a loop of [keep_recent] that does not raise, a submission whose id is
    new when it is reached is turned into a record, and the record is kept
    if its day is after the cut-off. *)
Lemma keep_recent_loop_complete (filter_date : string) (l1 l2 : list praw.Submission)
    (x : praw.Submission) (st : Reddit.search_state T) :
  raised (for_each (l1 ++ x :: l2) (hatinh.keep_recent filter_date) st).2 = None ->
  praw.id x ∉ Reddit.seen_ids st ->
  praw.id x ∉ map praw.id l1 ->
  exists r,
    RedditSubmission.__init__ x = OK r /\
    (str_gt (RedditSubmission.created r) filter_date = true ->
     r ∈ yielded (for_each (l1 ++ x :: l2) (hatinh.keep_recent filter_date) st).2).
Proof.
  revert st. induction l1 as [|y l1 IH]; intros st Hnone Hseen Hnew.
  - cbn [app for_each] in *. rewrite (and_then_yielded _ _ _ Hnone).
    apply and_then_run in Hnone as (Hx & _ & _).
    unfold hatinh.keep_recent in *. rewrite decide_False in * by exact Hseen.
    destruct (RedditSubmission.__init__ x) as [r|e]; [| discriminate].
    exists r. split; [reflexivity|]. intros Hgt. rewrite Hgt.
    apply elem_of_app. left. cbn. left.
  - cbn [app for_each map] in *. apply not_elem_of_cons in Hnew as [Hne Hnew].
    rewrite (and_then_yielded _ _ _ Hnone).
    apply and_then_run in Hnone as (_ & _ & Hrest).
    destruct (IH (hatinh.keep_recent filter_date y st).1 Hrest) as (r & Hr & Hin);
      [| exact Hnew |].
    + unfold hatinh.keep_recent. destruct (decide _) as [Hy|Hy]; [exact Hseen|].
      destruct (RedditSubmission.__init__ y) as [r|e];
        [destruct (str_gt _ _)|]; cbn [yield skip throw fst Reddit.seen_ids];
        (intros [Heq%elem_of_singleton|Hin]%elem_of_union;
         [by apply Hne | by apply Hseen]).
    + exists r. split; [exact Hr|]. intros Hgt. apply elem_of_app. right. by apply Hin.
Qed.

Lemma returned_OK_raised {A : Type} (out : Stream A) (l : list A) :
  hatinh.returned out = OK l -> raised out = None.
Proof. unfold hatinh.returned. by destruct (raised out). Qed.

(** X17. When [FetchRedditSubmissionsInSubreddits] returns for a single
    subreddit, every submission of the listing, at the first place where its
    id is listed, was turned into a record, and that record is returned if
    the submission was created after the cut-off day. *)
Theorem fetch_keeps_every_recent_submission (subreddit_name collection_period : string)
    (reddit : Reddit.t T) (limit : option Z) (results : list RedditSubmission.t)
    (l1 l2 : list praw.Submission) (x : praw.Submission) :
  hatinh.FetchRedditSubmissionsInSubreddits [subreddit_name] collection_period reddit
    limit = OK results ->
  items (praw.subreddit_new (hatinh.clean_subreddit_name subreddit_name) limit
           (Reddit.reddit reddit)).1 = l1 ++ x :: l2 ->
  ~ In (praw.id x) (map praw.id l1) ->
  exists r d days cutoff,
    RedditSubmission.__init__ x = OK r /\
    fromtimestamp (praw.created_utc x) = OK d /\
    In (collection_period, days) Spec.period_days /\
    sub_days today days = OK cutoff /\
    (date_lt cutoff d -> In r results).
Proof.
  intros Hfetch Hitems Hnew.
  unfold hatinh.FetchRedditSubmissionsInSubreddits, bind in Hfetch.
  destruct (hatinh.filter_date_of collection_period) as [filter_date|] eqn:Hdate;
    [| discriminate].
  apply filter_date_of_OK in Hdate as (days & cutoff & Hdays & Hcut & ->).
  pose proof (returned_OK_raised _ _ Hfetch) as Hnone.
  apply returned_OK in Hfetch. subst results. cbn [for_each] in *.
  rewrite (and_then_yielded _ _ _ Hnone).
  apply and_then_run in Hnone as (Hbody & _ & _).
  unfold hatinh.new_in_subreddit in *. cbn [Reddit.self Reddit.reddit] in *.
  destruct (praw.subreddit_new _ _ _) as [listing remote]. cbn [fst] in Hitems.
  rewrite (and_then_yielded _ _ _ Hbody).
  apply and_then_run in Hbody as (Hloop & _ & _). rewrite Hitems in *.
  destruct (keep_recent_loop_complete (isoformat cutoff) l1 l2 x _ Hloop)
    as (r & Hr & Hin).
  - cbn. apply not_elem_of_empty.
  - by rewrite list_elem_of_In.
  - pose proof (init_fields x r Hr) as (_ & _ & _ & _ & _ & d & Hd & Hcreated).
    exists r, d, days, cutoff. split; [exact Hr|]. split; [exact Hd|].
    split; [by apply list_elem_of_In|]. split; [exact Hcut|].
    intros Hlt. apply list_elem_of_In.
    apply elem_of_app. left. apply elem_of_app. left. apply Hin.
    rewrite Hcreated. by apply str_gt_isoformat.
Qed.

End Complete.

(** ** A redditor's listing *)

Section ByUser.
Context {T : Type} {transport : praw.Transport T} {clock : Clock}.

(** The loop over a redditor's listing is the loop of [keep_recent] over the
    submissions in it: comments change neither the state nor the result. *)
Lemma keep_recent_submission_loop (filter_date : string) (l : list praw.Item)
    (st : Reddit.search_state T) :
  for_each l (hatinh.keep_recent_submission filter_date) st
  = for_each (Spec.submissions_among l) (hatinh.keep_recent filter_date) st.
Proof.
  revert st. induction l as [|[s|c] l IH]; intros st; [reflexivity| |].
  - cbn [for_each Spec.submissions_among omap hatinh.keep_recent_submission].
    apply and_then_ext; [reflexivity | exact IH].
  - cbn [for_each Spec.submissions_among omap hatinh.keep_recent_submission].
    rewrite and_then_skip. apply IH.
Qed.

Lemma submissions_among_app (l1 l2 : list praw.Item) :
  Spec.submissions_among (l1 ++ l2)
  = Spec.submissions_among l1 ++ Spec.submissions_among l2.
Proof. apply omap_app. Qed.

(** X19. When [FetchRedditSubmissionsByUsers] returns for a single user, the
    comments of the listing are passed over: every submission of the listing,
    at the first place where its id is listed among the submissions, was
    turned into a record, and that record is returned if the submission was
    created after the cut-off day. *)
Theorem fetch_by_user_passes_over_comments (user collection_period : string)
    (reddit : Reddit.t T) (limit : option Z) (results : list RedditSubmission.t)
    (l1 l2 : list praw.Item) (x : praw.Submission) :
  hatinh.FetchRedditSubmissionsByUsers [user] collection_period reddit limit
    = OK results ->
  items (praw.redditor_new user limit (Reddit.reddit reddit)).1
    = l1 ++ praw.ItemSubmission x :: l2 ->
  ~ In (praw.id x) (map praw.id (Spec.submissions_among l1)) ->
  exists r d days cutoff,
    RedditSubmission.__init__ x = OK r /\
    fromtimestamp (praw.created_utc x) = OK d /\
    In (collection_period, days) Spec.period_days /\
    sub_days today days = OK cutoff /\
    (date_lt cutoff d -> In r results).
Proof.
  intros Hfetch Hitems Hnew.
  unfold hatinh.FetchRedditSubmissionsByUsers, bind in Hfetch.
  destruct (hatinh.filter_date_of collection_period) as [filter_date|] eqn:Hdate;
    [| discriminate].
  apply filter_date_of_OK in Hdate as (days & cutoff & Hdays & Hcut & ->).
  pose proof (returned_OK_raised _ _ Hfetch) as Hnone.
  apply returned_OK in Hfetch. subst results. cbn [for_each] in *.
  rewrite (and_then_yielded _ _ _ Hnone).
  apply and_then_run in Hnone as (Hbody & _ & _).
  unfold hatinh.new_by_user in *. cbn [Reddit.self Reddit.reddit] in *.
  destruct (praw.redditor_new _ _ _) as [listing remote]. cbn [fst] in Hitems.
  rewrite (and_then_yielded _ _ _ Hbody).
  apply and_then_run in Hbody as (Hloop & _ & _).
  rewrite keep_recent_submission_loop in *. rewrite Hitems in *.
  rewrite submissions_among_app in *.
  cbn [Spec.submissions_among omap] in *.
  fold (Spec.submissions_among l2) in *.
  destruct (keep_recent_loop_complete (isoformat cutoff) (Spec.submissions_among l1)
              (Spec.submissions_among l2) x _ Hloop) as (r & Hr & Hin).
  - cbn. apply not_elem_of_empty.
  - by rewrite list_elem_of_In.
  - pose proof (init_fields x r Hr) as (_ & _ & _ & _ & _ & d & Hd & Hcreated).
    exists r, d, days, cutoff. split; [exact Hr|]. split; [exact Hd|].
    split; [by apply list_elem_of_In|]. split; [exact Hcut|].
    intros Hlt. apply list_elem_of_In.
    apply elem_of_app. left. apply elem_of_app. left. apply Hin.
    rewrite Hcreated. by apply str_gt_isoformat.
Qed.

End ByUser.

(** ** The data of a single game *)

Section SingleGame.
Context {T : Type} {transport : praw.Transport T} {clock : Clock}.


End SingleGame.

(** * Further runs on concrete inputs *)

(** A listing of four submissions is below the threshold: one call. *)
Lemma single_channel_short_circuit_witness :
  Z.of_nat
    (length
       (items (praw.subreddit_search (Transport := cats) "a" (Spec.quoted "cat")
                 "relevance" "year" None (Reddit.reddit fresh)).1)) < 250 /\
  Reddit.issued
    (Reddit.search (transport := cats) (clock := utc_clock) fresh "cat" (Reddit.Str "a")
       "year" None None).1
  = [praw.Search "a" (Spec.quoted "cat") "relevance" "year" None].
Proof.
  assert (Hshort :
            Z.of_nat
              (length
                 (items (praw.subreddit_search (Transport := cats) "a" (Spec.quoted "cat")
                           "relevance" "year" None (Reddit.reddit fresh)).1)) < 250)
    by (vm_compute; reflexivity).
  split; [exact Hshort|].
  exact (single_channel_short_circuit (transport := cats) (clock := utc_clock) fresh
           "cat" "a" "year" None Hshort).
Defined.

(** A first listing of 250 distinct ids: the five calls of the cascade. *)
Lemma single_channel_cascade_witness :
  raised
    (Reddit.search (transport := busy) (clock := utc_clock) fresh "cat" (Reddit.Str "a")
       "year" None None).2 = None /\
  Reddit.issued
    (Reddit.search (transport := busy) (clock := utc_clock) fresh "cat" (Reddit.Str "a")
       "year" None None).1
  = map (fun sort => praw.Search "a" (Spec.quoted "cat") sort "year" None) Spec.cascade.
Proof.
  assert (Hnone :
            raised
              (Reddit.search (transport := busy) (clock := utc_clock) fresh "cat"
                 (Reddit.Str "a") "year" None None).2 = None)
    by (vm_compute; reflexivity).
  split; [exact Hnone|].
  rewrite (single_channel_cascade (transport := busy) (clock := utc_clock) fresh "cat"
             "a" "year" None Hnone).
  vm_compute. reflexivity.
Defined.

Lemma every_term_result_matches_a_term_witness :
  In pet_record
    (yielded
       (Reddit.search_for_multiple_terms (transport := cats) (clock := utc_clock) fresh
          [""; "dragon"; "Cat"] (Reddit.Str "a") None).2) /\
  exists t, In t [""; "dragon"; "Cat"] /\ t <> "" /\ Spec.matches t pet_record.
Proof.
  assert (Hin :
            In pet_record
              (yielded
                 (Reddit.search_for_multiple_terms (transport := cats)
                    (clock := utc_clock) fresh [""; "dragon"; "Cat"] (Reddit.Str "a")
                    None).2))
    by (vm_compute; right; left; reflexivity).
  split; [exact Hin|].
  exact (every_term_result_matches_a_term (transport := cats) (clock := utc_clock) fresh
           [""; "dragon"; "Cat"] (Reddit.Str "a") None pet_record Hin).
Defined.

Lemma record_construction_outcomes_witness :
  fromtimestamp (Clock := utc_clock) (praw.created_utc nan_post) = OK day_2020_03_01 /\
  RedditSubmission.__init__ (clock := utc_clock) nan_post = Raise ValueError.
Proof.
  assert (Hd : fromtimestamp (Clock := utc_clock) (praw.created_utc nan_post)
               = OK day_2020_03_01) by reflexivity.
  split; [exact Hd|].
  destruct (record_construction_outcomes (clock := utc_clock) nan_post day_2020_03_01 Hd)
    as [[[r Hr]|[Hv|Ho]] _]; [| exact Hv |]; vm_compute in *; discriminate.
Defined.

Lemma aggregate_ignores_order_witness :
  [cat_record; pet_record] ≡ₚ [pet_record; cat_record] /\
  RedditAggregationData.__init__ (clock := utc_clock) 1 "2020-03-01"
    [cat_record; pet_record] =
  RedditAggregationData.__init__ (clock := utc_clock) 1 "2020-03-01"
    [pet_record; cat_record].
Proof.
  assert (Hperm : [cat_record; pet_record] ≡ₚ [pet_record; cat_record])
    by apply Permutation_swap.
  split; [exact Hperm|].
  exact (aggregate_ignores_order (clock := utc_clock) 1 "2020-03-01" _ _ Hperm).
Defined.

Lemma aggregate_of_concatenation_witness :
  RedditAggregationData.__init__ (clock := utc_clock) 1 "2020-03-01" [cat_record]
  = OK (RedditAggregationData.mk 1 "2020-03-01" 2 1 10 10 "2020-03-01") /\
  RedditAggregationData.__init__ (clock := utc_clock) 1 "2020-03-01" [pet_record]
  = OK (RedditAggregationData.mk 1 "2020-03-01" 1 1 4 1 "2020-03-01") /\
  RedditAggregationData.__init__ (clock := utc_clock) 1 "2020-03-01"
    [cat_record; pet_record]
  = OK (RedditAggregationData.mk 1 "2020-03-01" 3 2 14 11 "2020-03-01").
Proof.
  split; [reflexivity|]. split; [reflexivity|].
  exact (aggregate_of_concatenation (clock := utc_clock) 1 "2020-03-01" [cat_record]
           [pet_record] _ _ eq_refl eq_refl).
Defined.


Lemma created_strings_stand_for_days_witness :
  RedditSubmission.__init__ (clock := utc_clock) cat_post = OK cat_record /\
  RedditSubmission.__init__ (clock := utc_clock) old_post = OK old_record /\
  str_gt (RedditSubmission.created cat_record) (RedditSubmission.created old_record)
  = true.
Proof.
  split; [reflexivity|]. split; [reflexivity|].
  destruct (created_strings_stand_for_days (clock := utc_clock) cat_post old_post
              cat_record old_record day_2020_03_01 (mkdate 2020 2 29 eq_refl)
              eq_refl eq_refl eq_refl eq_refl) as [Horder _].
  apply Horder. reflexivity.
Defined.

Lemma unknown_period_is_rejected_witness :
  ~ In "X" ["D"; "W"; "M"; "Y"] /\
  hatinh.FetchRedditSubmissionsInSubreddits (transport := cats) (clock := utc_clock)
    ["gaming"] "X" fresh None
  = Raise (AssertionError "Collection period has to be one of D,W,M or Y").
Proof.
  assert (Hout : ~ In "X" ["D"; "W"; "M"; "Y"]).
  { intros [H|[H|[H|[H|[]]]]]; discriminate. }
  split; [exact Hout|].
  exact (proj1 (unknown_period_is_rejected (transport := cats) (clock := utc_clock)
                  ["gaming"] "X" fresh None Hout)).
Defined.

Lemma search_keeps_every_match_of_the_first_listing_witness :
  RedditSubmission.__init__ (clock := utc_clock) pet_post = OK pet_record /\
  In pet_record
    (yielded
       (Reddit.search (transport := cats) (clock := utc_clock) fresh "cat"
          (Reddit.Str "a") "year" None None).2).
Proof.
  destruct (search_keeps_every_match_of_the_first_listing (transport := cats)
              (clock := utc_clock) fresh "cat" "a" "year" None None
              [cat_post; dog_post; cat_post] [] pet_post) as (r & Hr & Hin).
  - vm_compute. reflexivity.
  - reflexivity.
  - intros [H|[H|[H|[]]]]; discriminate.
  - right. exists "my ", " sleeps". reflexivity.
  - change (RedditSubmission.__init__ pet_post) with (OK pet_record) in Hr.
    injection Hr as <-.
    split; [reflexivity | exact Hin].
Defined.

Lemma fetch_keeps_every_recent_submission_witness :
  hatinh.FetchRedditSubmissionsInSubreddits (transport := cats) (clock := utc_clock)
    ["r/gaming"] "D" fresh None = OK [cat_record; pet_record] /\
  In pet_record [cat_record; pet_record].
Proof.
  assert (Hrun :
            hatinh.FetchRedditSubmissionsInSubreddits (transport := cats)
              (clock := utc_clock) ["r/gaming"] "D" fresh None
            = OK [cat_record; pet_record]) by (vm_compute; reflexivity).
  split; [exact Hrun|].
  destruct (fetch_keeps_every_recent_submission (transport := cats) (clock := utc_clock)
              "r/gaming" "D" fresh None _ [cat_post; old_post; cat_post] [] pet_post Hrun)
    as (r & d & days & cutoff & Hr & Hd & Hdays & Hcut & Hin).
  - reflexivity.
  - intros [H|[H|[H|[]]]]; discriminate.
  - change (RedditSubmission.__init__ pet_post) with (OK pet_record) in Hr.
    injection Hr as <-.
    apply Hin.
    change (fromtimestamp (praw.created_utc pet_post)) with (OK day_2020_03_01) in Hd.
    injection Hd as <-.
    assert (days = 1) as ->.
    { destruct Hdays as [H|[H|[H|[H|[]]]]]; congruence. }
    change (sub_days today 1) with (OK (mkdate 2020 2 29 eq_refl)) in Hcut.
    injection Hcut as <-.
    reflexivity.
Defined.

Lemma game_init_succeeds_otherwise_witness :
  urllib.urlparse (Parser := basic_parser) (Some "https://example.com/path/")
  = OK (urllib.mkParseResult (urllib.Text "example.com") (urllib.Text "/path/")) /\
  Game.__init__ (parser := basic_parser) 1 "Portal" (Some "https://example.com/path/")
  = OK (Game.mk 1 "Portal" "example.com/path" (Some "https://example.com/path/")).
Proof.
  split; [reflexivity|].
  destruct (game_init_succeeds_otherwise (parser := basic_parser) 1 "Portal"
              (Some "https://example.com/path/")
              (urllib.mkParseResult (urllib.Text "example.com") (urllib.Text "/path/"))
              eq_refl) as (g & Hg & _); [discriminate|].
  rewrite Hg. vm_compute in Hg. congruence.
Defined.

(** The two other ways in which building a record fails. *)
Example record_with_a_tiny_ratio_overflows :
  RedditSubmission.__init__ (clock := utc_clock)
    (post "p8" "Cat!" "" 0 3 0 (S754_finite false 1 (-1074)))
  = Raise OverflowError.
Proof. vm_compute. reflexivity. Qed.

Example record_with_negative_zero_ratio :
  RedditSubmission.downvotes <$> (match RedditSubmission.__init__ (clock := utc_clock)
                                          (post "p9" "Cat." "" 0 3 0 (S754_zero true)) with
                                  | OK r => Some r
                                  | Raise _ => None
                                  end) = Some 0.
Proof. vm_compute. reflexivity. Qed.

(** Two channels and the sort new: two calls, one per channel. *)
Lemma search_with_a_sort_calls_each_channel_once_witness :
  Reddit.issued
    (Reddit.search (transport := cats) (clock := utc_clock) fresh "cat"
       (Reddit.Lst ["a"; "b"]) "year" None (Some "new")).1
  = [praw.Search "a" (Spec.quoted "cat") "new" "year" None;
     praw.Search "b" (Spec.quoted "cat") "new" "year" None].
Proof.
  destruct (search_with_a_sort_calls_each_channel_once (transport := cats)
              (clock := utc_clock) fresh "cat" (Reddit.Lst ["a"; "b"]) "year" None "new")
    as (k & Hissued & Hall).
  rewrite Hissued, Hall by (vm_compute; reflexivity). reflexivity.
Defined.

(** A redditor's listing that starts with a comment: the submission after
    it is returned. *)
Lemma fetch_by_user_passes_over_comments_witness :
  hatinh.FetchRedditSubmissionsByUsers (transport := cats) (clock := utc_clock)
    ["someone"] "D" fresh None = OK [pet_record] /\
  In pet_record [pet_record].
Proof.
  assert (Hrun :
            hatinh.FetchRedditSubmissionsByUsers (transport := cats)
              (clock := utc_clock) ["someone"] "D" fresh None
            = OK [pet_record]) by (vm_compute; reflexivity).
  split; [exact Hrun|].
  destruct (fetch_by_user_passes_over_comments (transport := cats) (clock := utc_clock)
              "someone" "D" fresh None _
              [praw.ItemComment (praw.mkComment "c1" "nice cat")]
              [praw.ItemSubmission old_post; praw.ItemSubmission pet_post] pet_post Hrun)
    as (r & d & days & cutoff & Hr & Hd & Hdays & Hcut & Hin).
  - reflexivity.
  - intros [].
  - change (RedditSubmission.__init__ pet_post) with (OK pet_record) in Hr.
    injection Hr as <-.
    apply Hin.
    change (fromtimestamp (praw.created_utc pet_post)) with (OK day_2020_03_01) in Hd.
    injection Hd as <-.
    assert (days = 1) as ->.
    { destruct Hdays as [H|[H|[H|[H|[]]]]]; congruence. }
    change (sub_days today 1) with (OK (mkdate 2020 2 29 eq_refl)) in Hcut.
    injection Hcut as <-.
    reflexivity.
Defined.

